(** * Spherical ellipse matching (nb/ellipse.ipynb)

    The notebook has three pieces of code that matter:
    - [in_ellipse] (cell 4): is a point of the sphere inside an ellipse;
    - [great_circle_distance] (cell 5): angular separation of two points;
    - the matching loop (cell 12): default substitution, margin scaling,
      the ellipse test and the annotation of the matching galaxy records.

    The notebook computes in IEEE binary64 through numpy.  The control
    flow and the data flow of the three routines do not depend on the
    number system, so they are written once over the interface [PyFloat];
    what only depends on control and data flow is proved for every
    implementation of the interface.  The implementation [xreal], exact
    real arithmetic extended with NaN, says what the formulas compute
    without rounding.  The implementation [binary64] is the arithmetic of
    the notebook: its laws come from the specification of the IEEE
    operations, and its examples are evaluated with the values of the C
    library's [cos], [sin] and [arctan2] at the arguments they reach. *)

From Stdlib Require Import Reals Lra QArith PrimFloat Uint63 Floats.
From stdpp Require Import gmap strings list fin_maps.

Set Warnings "-register-all".

(** ** Numbers *)

(** The operations of numbers the notebook uses.  [lit] reads a numeric
    literal of the source (an int or a decimal float), [round2] is
    Python's [round (x, 2)]. *)
Class PyFloat (F : Type) := {
  lit : Q -> F;
  np_pi : F;
  add : F -> F -> F;
  sub : F -> F -> F;
  mul : F -> F -> F;
  div : F -> F -> F;
  neg : F -> F;
  np_sqrt : F -> F;
  np_cos : F -> F;
  np_sin : F -> F;
  np_abs : F -> F;
  np_arctan2 : F -> F -> F;
  round2 : F -> F;
  ltb : F -> F -> bool;
  np_isnan : F -> bool
}.

Arguments lit {F _} q%_Q.

Declare Scope py_scope.
Delimit Scope py_scope with py.
Notation "x + y" := (add x y) : py_scope.
Notation "x - y" := (sub x y) : py_scope.
Notation "x * y" := (mul x y) : py_scope.
Notation "x / y" := (div x y) : py_scope.
Notation "- x" := (neg x) : py_scope.
Notation "x <? y" := (ltb x y) : py_scope.
Notation "x >? y" := (ltb y x) (only parsing) : py_scope.
(* [x ** 2] with the literal exponent 2 is the product [x * x]. *)
Notation "x '**' '2'" := (mul x x) (at level 1, only parsing) : py_scope.

Section Routines.
Context {F : Type} `{PyFloat F}.
Local Open Scope py_scope.

(** *** Cell 4: [in_ellipse] *)

Definition in_ellipse (alpha delta0 alpha1 delta01 d0 axis_ratio PA0 : F) : bool :=
  let DEGRA := np_pi / lit 180 in
  let d_alpha := (alpha1 - alpha) * DEGRA in
  let delta1 := delta01 * DEGRA in
  let delta := delta0 * DEGRA in
  let PA := PA0 * DEGRA in
  let d := d0 * DEGRA in
  let e := np_sqrt (lit 1 - axis_ratio * axis_ratio) in
  let t1 := np_cos d_alpha in
  let t22 := np_sin d_alpha in
  let t3 := np_cos delta1 in
  let t32 := np_sin delta1 in
  let t6 := np_cos delta in
  let t26 := np_sin delta in
  let t9 := np_cos d in
  let t55 := np_sin d in
  if (t3 * t6 * t1 + t32 * t26) <? lit 0 then false else
  let t2 := t1 * t1 in
  let t4 := t3 * t3 in
  let t5 := t2 * t4 in
  let t7 := t6 * t6 in
  let t8 := t5 * t7 in
  let t10 := t9 * t9 in
  let t11 := t7 * t10 in
  let t13 := np_cos PA in
  let t14 := t13 * t13 in
  let t15 := t14 * t10 in
  let t18 := t7 * t14 in
  let t19 := t18 * t10 in
  let t24 := np_sin PA in
  let t31 := t1 * t3 in
  let t36 := lit 2 * t31 * t32 * t26 * t6 in
  let t37 := t31 * t32 in
  let t38 := t26 * t6 in
  let t45 := t4 * t10 in
  let t56 := t55 * t55 in
  let t57 := t4 * t7 in
  let t60 := - t8 + t5 * t11 + lit 2 * t5 * t15 - t5 * t19 -
             lit 2 * t1 * t4 * t22 * t10 * t24 * t13 * t26 - t36 +
             lit 2 * t37 * t38 * t10 - lit 2 * t37 * t38 * t15 - t45 * t14 - t45 * t2 +
             lit 2 * t22 * t3 * t32 * t6 * t24 * t10 * t13 - t56 + t7 - t11 + t4 - t57 +
             t57 * t10 + t19 - t18 * t45 in
  let t61 := e * e in
  let t63 := t60 * t61 + t8 + t57 - t4 - t7 + t56 + t36 in
  t63 >? lit 0.

(** The two decision values of [in_ellipse], as functions of its
    arguments: the quantity compared with zero by the early return, and
    [t63], the value of the ellipse polynomial, compared with zero by the
    last line.  [in_ellipse_decisions] checks that they are the expressions
    [in_ellipse] evaluates. *)
Definition hemisphere (alpha delta0 alpha1 delta01 : F) : F :=
  let DEGRA := np_pi / lit 180 in
  let d_alpha := (alpha1 - alpha) * DEGRA in
  let delta1 := delta01 * DEGRA in
  let delta := delta0 * DEGRA in
  let t1 := np_cos d_alpha in
  let t3 := np_cos delta1 in
  let t32 := np_sin delta1 in
  let t6 := np_cos delta in
  let t26 := np_sin delta in
  t3 * t6 * t1 + t32 * t26.

Definition t63 (alpha delta0 alpha1 delta01 d0 axis_ratio PA0 : F) : F :=
  let DEGRA := np_pi / lit 180 in
  let d_alpha := (alpha1 - alpha) * DEGRA in
  let delta1 := delta01 * DEGRA in
  let delta := delta0 * DEGRA in
  let PA := PA0 * DEGRA in
  let d := d0 * DEGRA in
  let e := np_sqrt (lit 1 - axis_ratio * axis_ratio) in
  let t1 := np_cos d_alpha in
  let t22 := np_sin d_alpha in
  let t3 := np_cos delta1 in
  let t32 := np_sin delta1 in
  let t6 := np_cos delta in
  let t26 := np_sin delta in
  let t9 := np_cos d in
  let t55 := np_sin d in
  let t2 := t1 * t1 in
  let t4 := t3 * t3 in
  let t5 := t2 * t4 in
  let t7 := t6 * t6 in
  let t8 := t5 * t7 in
  let t10 := t9 * t9 in
  let t11 := t7 * t10 in
  let t13 := np_cos PA in
  let t14 := t13 * t13 in
  let t15 := t14 * t10 in
  let t18 := t7 * t14 in
  let t19 := t18 * t10 in
  let t24 := np_sin PA in
  let t31 := t1 * t3 in
  let t36 := lit 2 * t31 * t32 * t26 * t6 in
  let t37 := t31 * t32 in
  let t38 := t26 * t6 in
  let t45 := t4 * t10 in
  let t56 := t55 * t55 in
  let t57 := t4 * t7 in
  let t60 := - t8 + t5 * t11 + lit 2 * t5 * t15 - t5 * t19 -
             lit 2 * t1 * t4 * t22 * t10 * t24 * t13 * t26 - t36 +
             lit 2 * t37 * t38 * t10 - lit 2 * t37 * t38 * t15 - t45 * t14 - t45 * t2 +
             lit 2 * t22 * t3 * t32 * t6 * t24 * t10 * t13 - t56 + t7 - t11 + t4 - t57 +
             t57 * t10 + t19 - t18 * t45 in
  let t61 := e * e in
  t60 * t61 + t8 + t57 - t4 - t7 + t56 + t36.

(** The variable [t63] when [in_ellipse] returns: unassigned after the
    early return, the value of the polynomial otherwise. *)
Definition t63_assigned (alpha delta0 alpha1 delta01 d0 axis_ratio PA0 : F) : option F :=
  if hemisphere alpha delta0 alpha1 delta01 <? lit 0 then None
  else Some (t63 alpha delta0 alpha1 delta01 d0 axis_ratio PA0).

(** *** Cell 5: [great_circle_distance] *)

Definition great_circle_distance (ra1_deg dec1_deg ra2_deg dec2_deg : F) : F :=
  let DEGRA := np_pi / lit 180 in
  let ra1 := ra1_deg * DEGRA in
  let dec1 := dec1_deg * DEGRA in
  let ra2 := ra2_deg * DEGRA in
  let dec2 := dec2_deg * DEGRA in
  let delta_ra := np_abs (ra2 - ra1) in
  let distance :=
    np_arctan2 (np_sqrt ((np_cos dec2 * np_sin delta_ra) ** 2
                         + (np_cos dec1 * np_sin dec2
                            - np_sin dec1 * np_cos dec2 * np_cos delta_ra) ** 2))
               (np_sin dec1 * np_sin dec2 + np_cos dec1 * np_cos dec2 * np_cos delta_ra) in
  distance * lit 180 / np_pi.

End Routines.

(** ** Python objects *)

(** A galaxy record is a Python [dict]; the value under ["coordinates"]
    is a [dict] of its own.  Dicts are objects: a variable or a dict entry
    holds a reference to one, and two references to the same dict see the
    same contents.  The heap maps a reference to the dict it denotes. *)
Definition loc := positive.

Inductive value (F : Type) : Type :=
  | VNum (x : F)                 (* an int or a float *)
  | VNone
  | VStr (s : string)
  | VList (vs : list (value F))  (* a list, never updated: the strings of radec_str *)
  | VRef (l : loc).              (* a dict *)

Arguments VNum {F} x.
Arguments VNone {F}.
Arguments VStr {F} s.
Arguments VList {F} vs.
Arguments VRef {F} l.

Abbreviation dict F := (gmap string (value F)).
Abbreviation heap F := (gmap loc (gmap string (value F))).

(** The exceptions the loop can raise: a missing key, an operation on a
    value of the wrong type ([None < -990], item assignment on a list or a
    number, a non-number passed to the compiled [in_ellipse]).  A reference
    without an object does not exist in Python: the model stops on it with
    [Dangling]. *)
Inductive exn : Type :=
  | KeyError (k : string)
  | TypeError
  | Dangling.

(** A statement runs on the heap and leaves a heap behind, also when it
    raises. *)
Definition py (F A : Type) : Type := heap F -> heap F * (exn + A).

Definition py_ret {F A} (a : A) : py F A := fun h => (h, inr a).
Definition raise {F A} (e : exn) : py F A := fun h => (h, inl e).
Definition py_bind {F A B} (m : py F A) (k : A -> py F B) : py F B :=
  fun h => match m h with
           | (h', inr a) => k a h'
           | (h', inl e) => (h', inl e)
           end.

Notation "x <- m ;; k" := (py_bind m (fun x => k))
  (at level 100, m at next level, right associativity, only parsing).
Notation "m ;;; k" := (py_bind m (fun _ => k))
  (at level 100, right associativity, only parsing).

Section Loop.
Context {F : Type} `{PyFloat F}.
Local Open Scope py_scope.

(** [d[k]] for a dict reference [l]. *)
Definition getitem (l : loc) (k : string) : py F (value F) :=
  fun h => match h !! l with
           | None => (h, inl Dangling)
           | Some d => match d !! k with
                       | None => (h, inl (KeyError k))
                       | Some v => (h, inr v)
                       end
           end.

(** [v[k] = x]: defined on dicts only (a list takes no string index). *)
Definition setitem (v : value F) (k : string) (x : value F) : py F unit :=
  fun h => match v with
           | VRef l => match h !! l with
                       | None => (h, inl Dangling)
                       | Some d => (<[l := <[k := x]> d]> h, inr tt)
                       end
           | _ => (h, inl TypeError)
           end.

(** A value used as a number. *)
Definition as_num (v : value F) : py F F :=
  match v with
  | VNum x => py_ret x
  | _ => raise TypeError
  end.

(** *** Cell 12: the matching loop *)

(** The value of the variable [in_galaxy]: the three tests with their
    defaults, the margin scaling and the call of [in_ellipse], on the
    numbers read from the record.  The assignments to [d0], [axis_ratio]
    and [PA0] are to variables of the loop, not to the record. *)
Definition in_galaxy (ra dec size_margin : F) (alpha1 delta01 d0 axis_ratio PA0 : F) : bool :=
  let d0 := if (d0 <? - lit 990) || np_isnan d0 then lit 0.0265889 else d0 in
  let axis_ratio :=
    if (axis_ratio <? - lit 990) || np_isnan axis_ratio then lit 0.61 else axis_ratio in
  let PA0 := if (PA0 <? - lit 990) || np_isnan PA0 then lit 86.0 else PA0 in
  in_ellipse ra dec alpha1 delta01 (size_margin * d0) axis_ratio PA0.

(** One iteration of [for galaxy in tqdm (galaxies + [M31, M33])].  The
    progress bar and the printed line are not modelled; the lookup of the
    name that is printed is, since it can raise.  A value read from the
    record is used as a number where the source first computes with it:
    the three tests, then the call of [in_ellipse]. *)
Definition loop_body (ra dec size_margin : F) (galaxy : loc) (matches : list loc)
  : py F (list loc) :=
  (* alpha1, delta01 = galaxy['ra'], galaxy['dec'] *)
  alpha1 <- getitem galaxy "ra" ;;
  delta01 <- getitem galaxy "dec" ;;
  (* d0, axis_ratio, PA0 = galaxy['a'], galaxy['b2a'], galaxy['pa'] *)
  d0 <- getitem galaxy "a" ;;
  axis_ratio <- getitem galaxy "b2a" ;;
  PA0 <- getitem galaxy "pa" ;;
  (* if (d0 < -990) or np.isnan(d0): ... and the two tests after it *)
  d0 <- as_num d0 ;;
  axis_ratio <- as_num axis_ratio ;;
  PA0 <- as_num PA0 ;;
  (* in_galaxy = in_ellipse(ra, dec, alpha1, delta01, size_margin * d0, axis_ratio, PA0) *)
  alpha1 <- as_num alpha1 ;;
  delta01 <- as_num delta01 ;;
  if in_galaxy ra dec size_margin alpha1 delta01 d0 axis_ratio PA0 then
    (* print(galaxy['name']) *)
    getitem galaxy "name" ;;;
    (* match = galaxy *)
    let match_ := galaxy in
    (* distance_arcsec = round(great_circle_distance(ra, dec, alpha1, delta01) * 3600, 2) *)
    let distance_arcsec := round2 (great_circle_distance ra dec alpha1 delta01 * lit 3600) in
    (* match['coordinates']['distance_arcsec'] = distance_arcsec *)
    coordinates <- getitem match_ "coordinates" ;;
    setitem coordinates "distance_arcsec" (VNum distance_arcsec) ;;;
    (* matches.append(match) *)
    py_ret (matches ++ [match_])
  else py_ret matches.

Fixpoint match_loop (ra dec size_margin : F) (galaxies : list loc) (matches : list loc)
  : py F (list loc) :=
  match galaxies with
  | [] => py_ret matches
  | galaxy :: rest =>
      matches <- loop_body ra dec size_margin galaxy matches ;;
      match_loop ra dec size_margin rest matches
  end.

(** The cell as a whole: [matches = []], then the loop over [galaxies],
    the sequence iterated ([galaxies + [M31, M33]] in the notebook). *)
Definition cell12 (ra dec size_margin : F) (galaxies : list loc) : py F (list loc) :=
  match_loop ra dec size_margin galaxies [].

End Loop.

(** ** Exact arithmetic *)

(** Real numbers extended with NaN.  An operation on NaN gives NaN, the
    square root of a negative number and a division by zero give NaN, a
    comparison with NaN is false.  Nothing is rounded and nothing
    overflows. *)
Inductive xreal : Type :=
  | Fin (r : R)
  | NaN.

Definition xlift1 (f : R -> R) (x : xreal) : xreal :=
  match x with
  | Fin a => Fin (f a)
  | NaN => NaN
  end.

Definition xlift2 (f : R -> R -> R) (x y : xreal) : xreal :=
  match x, y with
  | Fin a, Fin b => Fin (f a b)
  | _, _ => NaN
  end.

(** A literal: an integer, or a decimal fraction. *)
Definition xlit (q : Q) : xreal :=
  match Qden q with
  | xH => Fin (IZR (Qnum q))
  | d => Fin (IZR (Qnum q) / IZR (Zpos d))
  end.

Definition xdiv (x y : xreal) : xreal :=
  match x, y with
  | Fin a, Fin b => if Req_dec_T b 0 then NaN else Fin (a / b)
  | _, _ => NaN
  end.

Definition xsqrt (x : xreal) : xreal :=
  match x with
  | Fin a => if Rlt_dec a 0 then NaN else Fin (R_sqrt.sqrt a)
  | NaN => NaN
  end.

(** [numpy.arctan2 y x], the angle of the point [(x, y)] in [(-PI, PI]]. *)
Definition Ratan2 (y x : R) : R :=
  (if Rlt_dec 0 x then atan (y / x)
   else if Rlt_dec x 0 then
     if Rle_dec 0 y then atan (y / x) + PI else atan (y / x) - PI
   else if Rlt_dec 0 y then PI / 2
   else if Rlt_dec y 0 then - (PI / 2)
   else 0)%R.

(** The integer nearest to [x], a tie going to the even one. *)
Definition round_half_even (x : R) : Z :=
  let n := Int_part x in
  let r := frac_part x in
  if Rlt_dec r (1 / 2)%R then n
  else if Rlt_dec (1 / 2)%R r then (n + 1)%Z
  else if Z.even n then n else (n + 1)%Z.

Definition xround2 (x : xreal) : xreal :=
  xlift1 (fun a => IZR (round_half_even (a * 100)) / 100)%R x.

Definition xltb (x y : xreal) : bool :=
  match x, y with
  | Fin a, Fin b => if Rlt_dec a b then true else false
  | _, _ => false
  end.

Definition xisnan (x : xreal) : bool :=
  match x with
  | Fin _ => false
  | NaN => true
  end.

#[export] Instance xreal_float : PyFloat xreal := {|
  lit := xlit;
  np_pi := Fin PI;
  add := xlift2 Rplus;
  sub := xlift2 Rminus;
  mul := xlift2 Rmult;
  div := xdiv;
  neg := xlift1 Ropp;
  np_sqrt := xsqrt;
  np_cos := xlift1 Rtrigo_def.cos;
  np_sin := xlift1 Rtrigo_def.sin;
  np_abs := xlift1 Rabs;
  np_arctan2 := xlift2 Ratan2;
  round2 := xround2;
  ltb := xltb;
  np_isnan := xisnan
|}.

(** ** IEEE binary64 arithmetic *)

(** The arithmetic of the notebook itself: the kernel's binary64 floats
    for the operations IEEE 754 defines, and the library functions the
    notebook calls ([cos], [sin], [arctan2] of the C library, Python's
    [round]) taken as they come. *)
Section Binary64.
Variables libm_cos libm_sin : float -> float.
Variable libm_atan2 : float -> float -> float.
Variable py_round2 : float -> float.

Definition float_of_Z (z : Z) : float :=
  match z with
  | Z0 => PrimFloat.zero
  | Zpos _ => PrimFloat.of_uint63 (Uint63.of_Z z)
  | Zneg p => PrimFloat.opp (PrimFloat.of_uint63 (Uint63.of_Z (Zpos p)))
  end.

(** A literal [n / 10^k] is the binary64 nearest to it: numerator and
    denominator are exact for the literals of the notebook, and the
    division rounds once. *)
Definition float_lit (q : Q) : float :=
  PrimFloat.div (float_of_Z (Qnum q)) (float_of_Z (Zpos (Qden q))).

Definition binary64 : PyFloat float := {|
  lit := float_lit;
  np_pi := 0x1.921fb54442d18p+1%float;  (* 3.141592653589793 *)
  add := PrimFloat.add;
  sub := PrimFloat.sub;
  mul := PrimFloat.mul;
  div := PrimFloat.div;
  neg := PrimFloat.opp;
  np_sqrt := PrimFloat.sqrt;
  np_cos := libm_cos;
  np_sin := libm_sin;
  np_abs := PrimFloat.abs;
  np_arctan2 := libm_atan2;
  round2 := py_round2;
  ltb := PrimFloat.ltb;
  np_isnan := PrimFloat.is_nan
|}.

End Binary64.

(** ** Reading the loop *)

Section Readings.
Context {F : Type} `{PyFloat F}.
Local Open Scope py_scope.

(** The default substitution in the words of the specification: a value
    is missing when it is below -990 or not a number, and a missing value
    is replaced by the default of its field. *)
Definition is_missing (x : F) : bool := (x <? - lit 990) || np_isnan x.

Definition with_default (default x : F) : F :=
  if is_missing x then default else x.

(** The number a record holds under a key, if it holds one. *)
Definition num_field (h : heap F) (g : loc) (k : string) : option F :=
  match h !! g with
  | Some d => match d !! k with
              | Some (VNum x) => Some x
              | _ => None
              end
  | None => None
  end.

(** The dict a record holds under ["coordinates"], if it holds one. *)
Definition coordinates_of (h : heap F) (g : loc) : option loc :=
  match h !! g with
  | Some d => match d !! "coordinates" with
              | Some (VRef c) => Some c
              | _ => None
              end
  | None => None
  end.

(** The ellipse test of the loop on the record [g] of the heap [h]. *)
Definition passes (ra dec size_margin : F) (h : heap F) (g : loc) : bool :=
  match num_field h g "ra", num_field h g "dec",
        num_field h g "a", num_field h g "b2a", num_field h g "pa" with
  | Some alpha1, Some delta01, Some d0, Some axis_ratio, Some PA0 =>
      in_galaxy ra dec size_margin alpha1 delta01 d0 axis_ratio PA0
  | _, _, _, _, _ => false
  end.

(** The annotation the loop computes for the record [g]. *)
Definition distance_arcsec_of (ra dec : F) (h : heap F) (g : loc) : option F :=
  match num_field h g "ra", num_field h g "dec" with
  | Some alpha1, Some delta01 =>
      Some (round2 (great_circle_distance ra dec alpha1 delta01 * lit 3600))
  | _, _ => None
  end.

(** A record as the query of cell 8 returns it: numbers under the five
    keys the loop reads, a name, and a dict under ["coordinates"]. *)
Definition has_num (h : heap F) (g : loc) (k : string) : bool :=
  match num_field h g k with
  | Some _ => true
  | None => false
  end.

Definition has_name (h : heap F) (g : loc) : bool :=
  match h !! g ≫= (.!! "name") with
  | Some _ => true
  | None => false
  end.

Definition has_coordinates (h : heap F) (g : loc) : bool :=
  match coordinates_of h g ≫= (h !!.) with
  | Some _ => true
  | None => false
  end.

Definition record_ok (h : heap F) (g : loc) : bool :=
  has_num h g "ra" && has_num h g "dec" && has_num h g "a" && has_num h g "b2a"
  && has_num h g "pa" && has_name h g && has_coordinates h g.

(** The effect of the loop on the heap for a record that passes the
    test: the annotation goes into the dict under ["coordinates"]. *)
Definition annotate (ra dec : F) (h : heap F) (g : loc) : heap F :=
  match coordinates_of h g, distance_arcsec_of ra dec h g with
  | Some c, Some x =>
      match h !! c with
      | Some d => <[c := <["distance_arcsec" := VNum x]> d]> h
      | None => h
      end
  | _, _ => h
  end.

(** A dict that carries a number under ["distance_arcsec"]. *)
Definition annotated (h : heap F) (c : loc) : Prop :=
  exists d x, h !! c = Some d /\ d !! "distance_arcsec" = Some (VNum x).

(** Two heaps with the same dicts that agree on every key but
    ["distance_arcsec"]. *)
Definition same_but_distance (h h' : heap F) : Prop :=
  forall l : loc,
    match h !! l, h' !! l with
    | Some d, Some d' => forall k : string, k <> "distance_arcsec" -> d' !! k = d !! k
    | None, None => True
    | _, _ => False
    end.

End Readings.

(** ** The geometry behind the polynomial *)

(** Real-valued quantities used to state what [in_ellipse] computes in
    exact arithmetic.  With [p] the point [(alpha, delta0)] and [c] the
    point [(alpha1, delta01)] as unit vectors, [dot] is their scalar
    product, [east] and [north] are the components of [c] in the tangent
    frame at [p], and [along], [across] those components turned by the
    position angle. *)
Section Geometry.
Local Open Scope R_scope.

Definition rad (x : R) : R := x * (PI / 180).

Definition dot (alpha delta0 alpha1 delta01 : R) : R :=
  Rtrigo_def.cos (rad delta01) * Rtrigo_def.cos (rad delta0) * Rtrigo_def.cos (rad (alpha1 - alpha))
  + Rtrigo_def.sin (rad delta01) * Rtrigo_def.sin (rad delta0).

Definition east (alpha delta0 alpha1 delta01 : R) : R :=
  Rtrigo_def.cos (rad delta01) * Rtrigo_def.sin (rad (alpha1 - alpha)).

Definition north (alpha delta0 alpha1 delta01 : R) : R :=
  Rtrigo_def.sin (rad delta01) * Rtrigo_def.cos (rad delta0)
  - Rtrigo_def.cos (rad delta01) * Rtrigo_def.sin (rad delta0) * Rtrigo_def.cos (rad (alpha1 - alpha)).

Definition along (alpha delta0 alpha1 delta01 PA0 : R) : R :=
  north alpha delta0 alpha1 delta01 * Rtrigo_def.cos (rad PA0)
  + east alpha delta0 alpha1 delta01 * Rtrigo_def.sin (rad PA0).

Definition across (alpha delta0 alpha1 delta01 PA0 : R) : R :=
  east alpha delta0 alpha1 delta01 * Rtrigo_def.cos (rad PA0)
  - north alpha delta0 alpha1 delta01 * Rtrigo_def.sin (rad PA0).

(** The conic the polynomial [t63] reduces to: positive inside. *)
Definition conic (alpha delta0 alpha1 delta01 d0 q PA0 : R) : R :=
  let S := Rtrigo_def.sin (rad d0) * Rtrigo_def.sin (rad d0) in
  let u := along alpha delta0 alpha1 delta01 PA0 in
  let v := across alpha delta0 alpha1 delta01 PA0 in
  q * q * (S - u * u) - v * v * (1 - (1 - q * q) * S).

End Geometry.


(** ** Records of the notebook *)

(** The first match of cell 13, "CGCG 146-027 NED01", and the two large
    galaxies of cell 10, in exact arithmetic.  Each record is a dict of
    its own, and so is the value under ["coordinates"]. *)
Section NotebookData.
Local Open Scope R_scope.

Definition NED01 : dict xreal :=
  list_to_map
    [("_id", VNum (Fin 283982)); ("name", VStr "CGCG 146-027 NED01");
     ("ra", VNum (Fin 106.99741666666999)); ("dec", VNum (Fin 31.663861111110002));
     ("z", VNum (Fin 0.0165010002));
     ("a", VNum NaN); ("b2a", VNum NaN); ("pa", VNum (Fin (-999)));
     ("sfr_ha", VNum (Fin 0)); ("sfr_fuv", VNum (Fin 0.18982003331227015));
     ("mstar", VNum (Fin 3456119639.4093933));
     ("coordinates", VRef 2%positive)].

Definition NED01_coordinates : dict xreal :=
  list_to_map [("radec_str", VList [VStr "07:07:59.3800"; VStr "31:39:49.900"])].

Definition M31 : dict xreal :=
  list_to_map
    [("_id", VNum (Fin 596900)); ("name", VStr "PGC2557");
     ("ra", VNum (Fin 10.6847)); ("dec", VNum (Fin 41.26901));
     ("a", VNum (Fin 6.35156)); ("b2a", VNum (Fin 0.32)); ("pa", VNum (Fin 35.0));
     ("z", VNum (Fin (-0.00100100006))); ("sfr_fuv", VNone);
     ("mstar", VNum (Fin 253816876.412914)); ("sfr_ha", VNum (Fin 0));
     ("coordinates", VRef 4%positive)].

Definition M31_coordinates : dict xreal :=
  list_to_map [("radec_str", VList [VStr "00:42:44.3503"; VStr "41:16:08.634"])].

Definition M33 : dict xreal :=
  list_to_map
    [("_id", VNum (Fin 597543)); ("name", VStr "PGC5818");
     ("ra", VNum (Fin 23.46204)); ("dec", VNum (Fin 30.66022));
     ("a", VNum (Fin 2.35983)); ("b2a", VNum (Fin 0.59)); ("pa", VNum (Fin 23.0));
     ("z", VNum (Fin (-0.000597000006))); ("sfr_fuv", VNone);
     ("mstar", VNum (Fin 4502777.420493)); ("sfr_ha", VNum (Fin 0));
     ("coordinates", VRef 6%positive)].

Definition M33_coordinates : dict xreal :=
  list_to_map [("radec_str", VList [VStr "01:33:50.8900"; VStr "30:39:36.800"])].

Definition notebook_heap : heap xreal :=
  list_to_map
    [(1%positive, NED01); (2%positive, NED01_coordinates);
     (3%positive, M31); (4%positive, M31_coordinates);
     (5%positive, M33); (6%positive, M33_coordinates)].

End NotebookData.

(** ** The two arguments of [arctan2] *)

Section Separation.
Context {F : Type} `{PyFloat F}.
Local Open Scope py_scope.

(** The first and the second argument of [np.arctan2] in
    [great_circle_distance]: the sine and the cosine of the separation. *)
Definition separation_sine (ra1_deg dec1_deg ra2_deg dec2_deg : F) : F :=
  let DEGRA := np_pi / lit 180 in
  let ra1 := ra1_deg * DEGRA in
  let dec1 := dec1_deg * DEGRA in
  let ra2 := ra2_deg * DEGRA in
  let dec2 := dec2_deg * DEGRA in
  let delta_ra := np_abs (ra2 - ra1) in
  np_sqrt ((np_cos dec2 * np_sin delta_ra) ** 2
           + (np_cos dec1 * np_sin dec2
              - np_sin dec1 * np_cos dec2 * np_cos delta_ra) ** 2).

Definition separation_cosine (ra1_deg dec1_deg ra2_deg dec2_deg : F) : F :=
  let DEGRA := np_pi / lit 180 in
  let ra1 := ra1_deg * DEGRA in
  let dec1 := dec1_deg * DEGRA in
  let ra2 := ra2_deg * DEGRA in
  let dec2 := dec2_deg * DEGRA in
  let delta_ra := np_abs (ra2 - ra1) in
  np_sin dec1 * np_sin dec2 + np_cos dec1 * np_cos dec2 * np_cos delta_ra.

End Separation.

(** ** The C library at the arguments of the examples *)

(** [cos], [sin] and [atan2] are not operations of IEEE 754: the notebook
    gets them from the C library.  The tables hold the values of glibc
    (x86-64) at the arguments the binary64 examples of this file reach,
    and nothing else: outside its table a function answers NaN, so that
    an example that left its table could not pass for a result. *)
Definition table_lookup (t : list (float * float)) (x : float) : float :=
  match List.find (fun p => Leibniz.eqb (fst p) x) t with
  | Some p => snd p
  | None => nan
  end.

Definition table_lookup2 (t : list (float * float * float)) (y x : float) : float :=
  match List.find (fun p => Leibniz.eqb (fst (fst p)) y && Leibniz.eqb (snd (fst p)) x) t with
  | Some p => snd p
  | None => nan
  end.

Definition cos_table : list (float * float) :=
  [((-0x1.0c152382d7365p+0)%float, 0x1.0000000000001p-1%float);
   (0%float, 0x1.0000000000000p+0%float);
   (0x1.921fb54442d18p+0%float, 0x1.1a62633145c07p-54%float);
   (0x1.921fb54442d18p+1%float, (-0x1.0000000000000p+0)%float);
   (0x1.1af3735724da1p-1%float, 0x1.b3c8ef0755fe5p-1%float);
   (0x1.e69b30e89a199p-12%float, 0x1.fffffc630e655p-1%float);
   (0x1.80406ea1f0345p+0%float, 0x1.1db8f6d6a5123p-4%float);
   (0x1.6cf464ae73933p-10%float, 0x1.ffffdf7b81de2p-1%float);
   (0x1.dfc0a0acf97e3p-30%float, 0x1.0000000000000p+0%float);
   (0x1.2bd8646c1beeep-26%float, 0x1.fffffffffffffp-1%float);
   (0x1.1af6e53dfbcfap-1%float, 0x1.b3c72013ea9a9p-1%float);
   (0x1.2ba66b26c0000p-17%float, 0x1.ffffffffa8507p-1%float);
   (0x1.1a3cf924ea462p-1%float, 0x1.b4289d41798b6p-1%float);
   (0x1.e14a58a800000p-23%float, 0x1.fffffffffff1ep-1%float);
   (0x1.e14a58a7ce3afp-23%float, 0x1.fffffffffff1ep-1%float);
   (0x1.2bd8646c1beedp-26%float, 0x1.fffffffffffffp-1%float)].

Definition sin_table : list (float * float) :=
  [((-0x1.0c152382d7365p+0)%float, (-0x1.bb67ae8584caap-1)%float);
   (0%float, 0%float);
   (0x1.921fb54442d18p+0%float, 0x1.0000000000000p+0%float);
   (0x1.921fb54442d18p+1%float, 0x1.1a62633145c07p-53%float);
   (0x1.1af3735724da1p-1%float, 0x1.0cc4448874736p-1%float);
   (0x1.e69b30e89a199p-12%float, 0x1.e69b2fc39433ap-12%float);
   (0x1.80406ea1f0345p+0%float, 0x1.fec0b7170fff6p-1%float);
   (0x1.6cf464ae73933p-10%float, 0x1.6cf45cf48bce7p-10%float);
   (0x1.dfc0a0acf97e3p-30%float, 0x1.dfc0a0acf97e3p-30%float);
   (0x1.2bd8646c1beeep-26%float, 0x1.2bd8646c1beeep-26%float);
   (0x1.2ba66b26c0000p-17%float, 0x1.2ba66b26aee4dp-17%float);
   (0x1.1af6e53dfbcfap-1%float, 0x1.0cc733269f445p-1%float);
   (0x1.e14a58a800000p-23%float, 0x1.e14a58a7fffb9p-23%float);
   (0x1.1a3cf924ea462p-1%float, 0x1.0c28e30b54127p-1%float);
   (0x1.e14a58a7ce3afp-23%float, 0x1.e14a58a7ce368p-23%float);
   (0x1.2bd8646c1beedp-26%float, 0x1.2bd8646c1beedp-26%float)].

Definition atan2_table : list (float * float * float) :=
  [(0x1.cb051f48104bcp-16%float, 0x1.fffffffcc8f4ap-1%float, 0x1.cb051f4906416p-16%float);
   (0x1.cb051f48130bap-16%float, 0x1.fffffffcc8f4ap-1%float, 0x1.cb051f4909014p-16%float);
   (0x1.6cf45cf4c6aa0p-10%float, 0x1.ffffdf7b81de2p-1%float, 0x1.6cf464aeae6ecp-10%float)].

Definition glibc_cos : float -> float := table_lookup cos_table.
Definition glibc_sin : float -> float := table_lookup sin_table.
Definition glibc_atan2 : float -> float -> float := table_lookup2 atan2_table.

(** The arithmetic of the notebook on those arguments.  [round] is used
    by the annotation only, which no example reaches. *)
Definition numpy64 : PyFloat float :=
  binary64 glibc_cos glibc_sin glibc_atan2 (fun _ => nan).

(** ** The real number a binary64 float stands for *)


(** * Proofs *)

(** ** The decisions of [in_ellipse] *)

Lemma in_ellipse_decisions {F} `{PyFloat F} (alpha delta0 alpha1 delta01 d0 axis_ratio PA0 : F) :
  in_ellipse alpha delta0 alpha1 delta01 d0 axis_ratio PA0 =
  if ltb (hemisphere alpha delta0 alpha1 delta01) (lit 0) then false
  else ltb (lit 0) (t63 alpha delta0 alpha1 delta01 d0 axis_ratio PA0).
Proof. reflexivity. Qed.

(** ** Exact arithmetic: evaluation on finite numbers *)

Section ExactEvaluation.
Local Open Scope R_scope.

Lemma DEGRA_Fin : div np_pi (lit 180) = Fin (PI / 180).
Proof.
  cbn. destruct (Req_dec_T 180 0) as [E|E]; [lra | reflexivity].
Qed.

Lemma eccentricity_Fin q :
  q * q <= 1 ->
  np_sqrt (sub (lit 1) (mul (Fin q) (Fin q))) = Fin (R_sqrt.sqrt (1 - q * q)).
Proof.
  intros Hq. cbn. destruct (Rlt_dec (1 - q * q) 0) as [E|E]; [lra | reflexivity].
Qed.

Lemma eccentricity_NaN q :
  1 < q * q ->
  np_sqrt (sub (lit 1) (mul (Fin q) (Fin q))) = NaN.
Proof.
  intros Hq. cbn. destruct (Rlt_dec (1 - q * q) 0) as [E|E]; [reflexivity | lra].
Qed.

Lemma sin_sqr x : Rtrigo_def.sin x * Rtrigo_def.sin x = 1 - Rtrigo_def.cos x * Rtrigo_def.cos x.
Proof. generalize (sin2_cos2 x). unfold Rsqr. lra. Qed.

Lemma hemisphere_exact alpha delta0 alpha1 delta01 :
  hemisphere (Fin alpha) (Fin delta0) (Fin alpha1) (Fin delta01)
  = Fin (dot alpha delta0 alpha1 delta01).
Proof. unfold hemisphere. rewrite DEGRA_Fin. reflexivity. Qed.

(** The polynomial is the conic, by the Pythagorean identity of each of
    the five angles. *)
Lemma t63_exact alpha delta0 alpha1 delta01 d0 q PA0 :
  q * q <= 1 ->
  t63 (Fin alpha) (Fin delta0) (Fin alpha1) (Fin delta01) (Fin d0) (Fin q) (Fin PA0)
  = Fin (conic alpha delta0 alpha1 delta01 d0 q PA0).
Proof.
  intros Hq. unfold t63. rewrite DEGRA_Fin, (eccentricity_Fin _ Hq). cbn.
  f_equal. rewrite sqrt_sqrt by lra.
  unfold conic, along, across, east, north, rad.
  pose proof (sin_sqr ((alpha1 - alpha) * (PI / 180))) as H1.
  pose proof (sin_sqr (delta01 * (PI / 180))) as H2.
  pose proof (sin_sqr (delta0 * (PI / 180))) as H3.
  pose proof (sin_sqr (d0 * (PI / 180))) as H4.
  pose proof (sin_sqr (PA0 * (PI / 180))) as H5.
  cbv zeta. ring [H1 H2 H3 H4 H5].
Qed.

Lemma t63_wide_ratio alpha delta0 alpha1 delta01 d0 q PA0 :
  1 < q * q ->
  t63 (Fin alpha) (Fin delta0) (Fin alpha1) (Fin delta01) (Fin d0) (Fin q) (Fin PA0) = NaN.
Proof.
  intros Hq. unfold t63. rewrite DEGRA_Fin, (eccentricity_NaN _ Hq). reflexivity.
Qed.

Lemma xltb_Fin a b : ltb (Fin a) (Fin b) = true <-> a < b.
Proof. cbn. destruct (Rlt_dec a b); split; intros; try lra; congruence. Qed.

Lemma in_ellipse_exact alpha delta0 alpha1 delta01 d0 q PA0 :
  q * q <= 1 ->
  in_ellipse (Fin alpha) (Fin delta0) (Fin alpha1) (Fin delta01) (Fin d0) (Fin q) (Fin PA0) = true
  <-> 0 <= dot alpha delta0 alpha1 delta01 /\ 0 < conic alpha delta0 alpha1 delta01 d0 q PA0.
Proof.
  intros Hq. rewrite in_ellipse_decisions, hemisphere_exact, (t63_exact _ _ _ _ _ _ _ Hq).
  change (lit 0) with (Fin 0).
  destruct (ltb (Fin (dot alpha delta0 alpha1 delta01)) (Fin 0)) eqn:E.
  - apply xltb_Fin in E. split; [discriminate | lra].
  - rewrite xltb_Fin. split; [intros H | tauto].
    split; [| exact H].
    destruct (Rle_dec 0 (dot alpha delta0 alpha1 delta01)) as [L|L]; [exact L |].
    assert (ltb (Fin (dot alpha delta0 alpha1 delta01)) (Fin 0) = true) as E'
      by (apply xltb_Fin; lra).
    congruence.
Qed.

Lemma in_ellipse_wide_ratio alpha delta0 alpha1 delta01 d0 q PA0 :
  1 < q * q ->
  in_ellipse (Fin alpha) (Fin delta0) (Fin alpha1) (Fin delta01) (Fin d0) (Fin q) (Fin PA0) = false.
Proof.
  intros Hq. rewrite in_ellipse_decisions, (t63_wide_ratio _ _ _ _ _ _ _ Hq).
  destruct (ltb _ _); reflexivity.
Qed.

End ExactEvaluation.

(** ** Exact arithmetic: [arctan2] and the separation *)

Section ExactSeparation.
Local Open Scope R_scope.

Lemma cos_Rabs x : Rtrigo_def.cos (Rabs x) = Rtrigo_def.cos x.
Proof.
  unfold Rabs. destruct (Rcase_abs x); [apply cos_neg | reflexivity].
Qed.

Lemma atan_nonneg t : 0 <= t -> 0 <= atan t.
Proof.
  intros [Ht | <-]; [| rewrite atan_0; lra].
  rewrite <- atan_0. left. apply atan_increasing. exact Ht.
Qed.

Lemma atan_nonpos t : t <= 0 -> atan t <= 0.
Proof.
  intros [Ht | ->]; [| rewrite atan_0; lra].
  rewrite <- atan_0. left. apply atan_increasing. exact Ht.
Qed.

Lemma Ratan2_range y x : 0 <= y -> 0 <= Ratan2 y x <= PI.
Proof.
  intros Hy. unfold Ratan2. pose proof PI_RGT_0 as Hpi.
  destruct (Rlt_dec 0 x) as [Hx | Hx].
  - pose proof (atan_bound (y / x)) as Hb.
    assert (0 <= atan (y / x)) by (apply atan_nonneg, Rle_mult_inv_pos; lra).
    lra.
  - destruct (Rlt_dec x 0) as [Hx' | Hx'].
    + destruct (Rle_dec 0 y) as [_ | Hy']; [| lra].
      pose proof (atan_bound (y / x)) as Hb.
      assert (atan (y / x) <= 0).
      { apply atan_nonpos. unfold Rdiv.
        assert (/ x < 0) by (apply Rinv_lt_0_compat; exact Hx'). nra. }
      lra.
    + destruct (Rlt_dec 0 y); [lra |].
      destruct (Rlt_dec y 0); lra.
Qed.

Lemma cos_atan_quotient y x :
  x <> 0 -> x * x + y * y = 1 -> Rtrigo_def.cos (atan (y / x)) = Rabs x.
Proof.
  intros Hx Hxy. rewrite cos_atan.
  replace (1 + (y / x)²) with (/ (x * x)).
  2:{ unfold Rsqr. field_simplify_eq; [| exact Hx]. lra. }
  assert (0 < Rabs x) as Hax by (apply Rabs_pos_lt; exact Hx).
  rewrite sqrt_inv. change (x * x) with (Rsqr x). rewrite sqrt_Rsqr_abs.
  field. lra.
Qed.

Lemma cos_Ratan2 y x : 0 <= y -> x * x + y * y = 1 -> Rtrigo_def.cos (Ratan2 y x) = x.
Proof.
  intros Hy Hxy. unfold Ratan2.
  destruct (Rlt_dec 0 x) as [Hx | Hx].
  - rewrite cos_atan_quotient by lra. apply Rabs_pos_eq. lra.
  - destruct (Rlt_dec x 0) as [Hx' | Hx'].
    + destruct (Rle_dec 0 y) as [_ | Hy']; [| lra].
      rewrite neg_cos, cos_atan_quotient by lra.
      rewrite Rabs_left by exact Hx'. lra.
    + assert (x = 0) as -> by lra.
      destruct (Rlt_dec 0 y) as [_ | Hy']; [apply cos_PI2 |].
      assert (y = 0) by lra. subst y. lra.
Qed.

(** The squared sine of the separation, as the code computes it, is the
    complement of the squared cosine. *)
Lemma cross_sqr (c1 s1 c2 s2 cd sd : R) :
  s1 * s1 = 1 - c1 * c1 -> s2 * s2 = 1 - c2 * c2 -> sd * sd = 1 - cd * cd ->
  c2 * sd * (c2 * sd) + (c1 * s2 - s1 * c2 * cd) * (c1 * s2 - s1 * c2 * cd)
  = 1 - (s1 * s2 + c1 * c2 * cd) * (s1 * s2 + c1 * c2 * cd).
Proof. intros H1 H2 H3. ring [H1 H2 H3]. Qed.

(** The value of [great_circle_distance] on finite numbers is an angle
    between 0 and 180 degrees whose cosine is [dot]. *)
Lemma great_circle_distance_exact ra1 dec1 ra2 dec2 :
  exists theta,
    great_circle_distance (Fin ra1) (Fin dec1) (Fin ra2) (Fin dec2) = Fin (theta * 180 / PI)
    /\ 0 <= theta <= PI
    /\ Rtrigo_def.cos theta = dot ra1 dec1 ra2 dec2.
Proof.
  unfold great_circle_distance. rewrite DEGRA_Fin. cbn.
  set (dr := Rabs (ra2 * (PI / 180) - ra1 * (PI / 180))).
  set (c1 := Rtrigo_def.cos (dec1 * (PI / 180))). set (s1 := Rtrigo_def.sin (dec1 * (PI / 180))).
  set (c2 := Rtrigo_def.cos (dec2 * (PI / 180))). set (s2 := Rtrigo_def.sin (dec2 * (PI / 180))).
  set (A := c2 * Rtrigo_def.sin dr * (c2 * Rtrigo_def.sin dr)
            + (c1 * s2 - s1 * c2 * Rtrigo_def.cos dr) * (c1 * s2 - s1 * c2 * Rtrigo_def.cos dr)).
  set (B := s1 * s2 + c1 * c2 * Rtrigo_def.cos dr).
  assert (A = 1 - B * B) as HA by (apply cross_sqr; apply sin_sqr).
  assert (0 <= A) as HA0 by (apply Rplus_le_le_0_compat; apply Rle_0_sqr).
  destruct (Rlt_dec A 0) as [? | _]; [lra |]. cbn.
  pose proof PI_RGT_0 as Hpi.
  destruct (Req_dec_T PI 0) as [? | _]; [lra |].
  exists (Ratan2 (R_sqrt.sqrt A) B). split; [reflexivity |]. split.
  - apply Ratan2_range, sqrt_pos.
  - rewrite cos_Ratan2.
    + unfold B, dot, rad, c1, s1, c2, s2, dr. rewrite cos_Rabs.
      replace (ra2 * (PI / 180) - ra1 * (PI / 180)) with ((ra2 - ra1) * (PI / 180)) by ring.
      ring.
    + apply sqrt_pos.
    + rewrite sqrt_sqrt by exact HA0. lra.
Qed.

End ExactSeparation.

(** ** Exact arithmetic: the shape of the conic *)

Section ExactConic.
Local Open Scope R_scope.

(** For a circle the test compares the cosine of the separation with
    the cosine of the radius. *)
Lemma conic_circle alpha delta0 alpha1 delta01 d0 PA0 :
  conic alpha delta0 alpha1 delta01 d0 1 PA0
  = dot alpha delta0 alpha1 delta01 * dot alpha delta0 alpha1 delta01
    - Rtrigo_def.cos (rad d0) * Rtrigo_def.cos (rad d0).
Proof.
  unfold conic, along, across, east, north, dot. cbv zeta.
  pose proof (sin_sqr (rad (alpha1 - alpha))) as H1.
  pose proof (sin_sqr (rad delta01)) as H2.
  pose proof (sin_sqr (rad delta0)) as H3.
  pose proof (sin_sqr (rad d0)) as H4.
  pose proof (sin_sqr (rad PA0)) as H5.
  ring [H1 H2 H3 H4 H5].
Qed.

(** At its own center the conic is [b2a^2 * sin^2 d]. *)
Lemma conic_center alpha delta0 d0 q PA0 :
  conic alpha delta0 alpha delta0 d0 q PA0
  = q * q * (Rtrigo_def.sin (rad d0) * Rtrigo_def.sin (rad d0)).
Proof.
  unfold conic, along, across, east, north, rad. cbv zeta.
  replace ((alpha - alpha) * (PI / 180)) with 0 by ring.
  rewrite sin_0, cos_0. ring.
Qed.

Lemma dot_center alpha delta0 : dot alpha delta0 alpha delta0 = 1.
Proof.
  unfold dot, rad. replace ((alpha - alpha) * (PI / 180)) with 0 by ring.
  rewrite cos_0. pose proof (sin_sqr (delta0 * (PI / 180))). lra.
Qed.



Lemma not_multiple_of_180 d0 : 0 < d0 < 180 -> forall k : Z, d0 <> IZR k * 180.
Proof.
  intros [H0 H1] k E.
  destruct (Z_le_gt_dec k 0) as [Hk | Hk].
  - apply IZR_le in Hk. nra.
  - assert (1 <= k)%Z as Hk' by lia. apply IZR_le in Hk'. nra.
Qed.

Lemma sin_rad_neq_0 d0 : (forall k : Z, d0 <> IZR k * 180) -> Rtrigo_def.sin (rad d0) <> 0.
Proof.
  intros Hk E. apply sin_eq_0_0 in E as [k E].
  apply (Hk k). unfold rad in E. pose proof PI_RGT_0 as Hpi.
  apply (Rmult_eq_reg_r (PI / 180)); [| lra]. rewrite E. field.
Qed.

(** The ellipse test at the center of the ellipse. *)
Lemma in_ellipse_center alpha delta0 d0 q PA0 :
  q <> 0 -> q * q <= 1 ->
  (forall k : Z, d0 <> IZR k * 180) ->
  in_ellipse (Fin alpha) (Fin delta0) (Fin alpha) (Fin delta0) (Fin d0) (Fin q) (Fin PA0) = true.
Proof.
  intros Hq0 Hq Hk. apply in_ellipse_exact; [exact Hq |].
  rewrite dot_center, conic_center. split; [lra |].
  apply sin_rad_neq_0 in Hk.
  apply Rmult_lt_0_compat; apply Rsqr_pos_lt; assumption.
Qed.

(** Half a turn of semi-major axis: the conic vanishes at the center. *)
Lemma conic_center_180 alpha delta0 q PA0 : conic alpha delta0 alpha delta0 180 q PA0 = 0.
Proof.
  rewrite conic_center. unfold rad. replace (180 * (PI / 180)) with PI by field.
  rewrite sin_PI. ring.
Qed.

End ExactConic.

(** ** Exact arithmetic: the helper functions on small inputs *)

Section ExactExamples.
Local Open Scope R_scope.

Example Ratan2_north : Ratan2 1 0 = PI / 2.
Proof.
  unfold Ratan2. destruct (Rlt_dec 0 0) as [L | _]; [lra |].
  destruct (Rlt_dec 0 0) as [L | _]; [lra |].
  destruct (Rlt_dec 0 1) as [_ | L]; [reflexivity | lra].
Qed.

Example Ratan2_west : Ratan2 0 (-1) = PI.
Proof.
  unfold Ratan2. destruct (Rlt_dec 0 (-1)) as [L | _]; [lra |].
  destruct (Rlt_dec (-1) 0) as [_ | L]; [| lra].
  destruct (Rle_dec 0 0) as [_ | L]; [| lra].
  replace (0 / -1) with 0 by field. rewrite atan_0. ring.
Qed.

Lemma round_half_even_at (x : R) (n : Z) :
  IZR n <= x -> x < IZR n + 1 / 2 -> round_half_even x = n.
Proof.
  intros Hlo Hhi. unfold round_half_even, frac_part.
  assert (n = Int_part x) as <- by (apply Int_part_spec; lra).
  destruct (Rlt_dec (x - IZR n) (1 / 2)) as [_ | L]; [reflexivity | lra].
Qed.

Lemma round_half_even_tie (n : Z) :
  round_half_even (IZR n + 1 / 2) = if Z.even n then n else (n + 1)%Z.
Proof.
  unfold round_half_even, frac_part.
  assert (n = Int_part (IZR n + 1 / 2)) as <- by (apply Int_part_spec; lra).
  destruct (Rlt_dec (IZR n + 1 / 2 - IZR n) (1 / 2)) as [L | _]; [lra |].
  destruct (Rlt_dec (1 / 2) (IZR n + 1 / 2 - IZR n)) as [L | _]; [lra | reflexivity].
Qed.

(** [round (0.125, 2) = 0.12] and [round (0.375, 2) = 0.38]: ties go to
    the even hundredth. *)
Example round2_ties :
  round2 (Fin 0.125) = Fin (12 / 100) /\ round2 (Fin 0.375) = Fin (38 / 100).
Proof.
  split; cbn; f_equal.
  - replace (0.125 * 100) with (IZR 12 + 1 / 2) by lra. rewrite round_half_even_tie.
    reflexivity.
  - replace (0.375 * 100) with (IZR 37 + 1 / 2) by lra. rewrite round_half_even_tie.
    reflexivity.
Qed.

Example round2_zero : round2 (Fin 0) = Fin 0.
Proof.
  cbn. f_equal. rewrite (round_half_even_at (0 * 100) 0) by lra. lra.
Qed.

(** The separation is an angle of 0 to 180 degrees, and 0 from a point
    to itself. *)
Lemma great_circle_distance_range ra1 dec1 ra2 dec2 s :
  great_circle_distance (Fin ra1) (Fin dec1) (Fin ra2) (Fin dec2) = Fin s -> 0 <= s <= 180.
Proof.
  destruct (great_circle_distance_exact ra1 dec1 ra2 dec2) as (theta & E & [T0 T1] & _).
  rewrite E. intros [= <-]. pose proof PI_RGT_0 as Hpi. split.
  - apply Rle_mult_inv_pos; [nra | lra].
  - apply (Rmult_le_reg_r PI); [lra |].
    replace (theta * 180 / PI * PI) with (theta * 180) by (field; lra). nra.
Qed.

Lemma great_circle_distance_self ra dec :
  great_circle_distance (Fin ra) (Fin dec) (Fin ra) (Fin dec) = Fin 0.
Proof.
  destruct (great_circle_distance_exact ra dec ra dec) as (theta & E & [T0 T1] & C).
  rewrite E. f_equal. rewrite dot_center in C.
  assert (theta = 0) as ->.
  { destruct (Req_dec theta 0) as [Z | NZ]; [exact Z |].
    assert (Rtrigo_def.cos theta < Rtrigo_def.cos 0) by (apply cos_decreasing_1; lra).
    rewrite cos_0 in *. lra. }
  pose proof PI_RGT_0. field. lra.
Qed.

End ExactExamples.

(** ** Binary64: the literals of the notebook *)

(** The three defaults and the sentinel, as binary64 reads them. *)
Example binary64_literals :
  float_lit 0.0265889 = 0x1.b3a1edfbf17d8p-6%float
  /\ float_lit 0.61 = 0x1.3851eb851eb85p-1%float
  /\ float_lit 86.0 = 86%float
  /\ float_lit (-999) = (-999)%float.
Proof. repeat split. Qed.

(** ** The ellipse test: early return and final comparison *)

(** In exact arithmetic the early return is the hemisphere test: the
    quantity is negative exactly when the separation exceeds 90 degrees. *)
Lemma hemisphere_negative_iff_far ra dec ra1 dec1 s :
  great_circle_distance (Fin ra) (Fin dec) (Fin ra1) (Fin dec1) = Fin s ->
  ltb (hemisphere (Fin ra) (Fin dec) (Fin ra1) (Fin dec1)) (lit 0) = true <-> (90 < s)%R.
Proof.
  intros Hs. destruct (great_circle_distance_exact ra dec ra1 dec1) as (theta & E & [T0 T1] & C).
  rewrite E in Hs. injection Hs as <-.
  rewrite hemisphere_exact. change (lit 0) with (Fin 0). rewrite xltb_Fin, <- C.
  pose proof PI_RGT_0 as Hpi.
  assert (90 < theta * 180 / PI <-> PI / 2 < theta)%R as ->.
  { split; intros Hlt.
    - apply (Rmult_lt_compat_r (PI / 180)) in Hlt; [| lra].
      replace (theta * 180 / PI * (PI / 180))%R with theta in Hlt by (field; lra). lra.
    - apply (Rmult_lt_compat_r (180 / PI)) in Hlt.
      + replace (PI / 2 * (180 / PI))%R with 90%R in Hlt by (field; lra).
        replace (theta * (180 / PI))%R with (theta * 180 / PI)%R in Hlt by (field; lra). lra.
      + apply Rdiv_pos_pos; lra. }
  split; intros Hlt.
  - destruct (Rlt_dec (PI / 2) theta) as [L | L]; [exact L |].
    assert (0 <= Rtrigo_def.cos theta)%R by (apply cos_ge_0; lra). lra.
  - apply cos_lt_0; lra.
Qed.

(** C2.  In every arithmetic, whatever the scaled axis [d0], the axis
    ratio and the position angle are: when the quantity
    [cos(dec1)*cos(dec)*cos(ra1-ra) + sin(dec1)*sin(dec)] compares
    negative, [in_ellipse] answers false at the early return, and [t63]
    plays no part in the answer.  In exact arithmetic that is the case of
    every point whose great-circle distance from the center exceeds 90
    degrees. *)
Theorem in_ellipse_far_hemisphere :
  (forall (F : Type) (HF : PyFloat F) (alpha delta0 alpha1 delta01 d0 axis_ratio PA0 : F),
      ltb (hemisphere alpha delta0 alpha1 delta01) (lit 0) = true ->
      in_ellipse alpha delta0 alpha1 delta01 d0 axis_ratio PA0 = false)
  /\ (forall (ra dec ra1 dec1 s : R) (d0 axis_ratio PA0 : xreal),
      great_circle_distance (Fin ra) (Fin dec) (Fin ra1) (Fin dec1) = Fin s ->
      (90 < s)%R ->
      in_ellipse (Fin ra) (Fin dec) (Fin ra1) (Fin dec1) d0 axis_ratio PA0 = false).
Proof.
  split.
  - intros F HF alpha delta0 alpha1 delta01 d0 axis_ratio PA0 Hneg.
    rewrite in_ellipse_decisions, Hneg. reflexivity.
  - intros ra dec ra1 dec1 s d0 axis_ratio PA0 Hs Hfar.
    apply (hemisphere_negative_iff_far ra dec ra1 dec1 s Hs) in Hfar.
    rewrite in_ellipse_decisions, Hfar. reflexivity.
Qed.

(** The point opposite to the center, half a turn away in right
    ascension on the equator, with an axis of 400 degrees. *)
Lemma in_ellipse_far_hemisphere_antipode :
  ltb (hemisphere (Fin 0) (Fin 0) (Fin 180) (Fin 0)) (lit 0) = true
  /\ in_ellipse (Fin 0) (Fin 0) (Fin 180) (Fin 0) (Fin 400) (Fin 1) (Fin 0) = false.
Proof.
  assert (ltb (hemisphere (Fin 0) (Fin 0) (Fin 180) (Fin 0)) (lit 0) = true) as Hneg.
  { rewrite hemisphere_exact. change (lit 0) with (Fin 0). apply xltb_Fin. unfold dot, rad.
    replace ((180 - 0) * (PI / 180))%R with PI by field.
    replace (0 * (PI / 180))%R with 0%R by ring.
    rewrite cos_PI, cos_0, sin_0. lra. }
  split; [exact Hneg |].
  exact (proj1 in_ellipse_far_hemisphere xreal xreal_float
           (Fin 0) (Fin 0) (Fin 180) (Fin 0) (Fin 400) (Fin 1) (Fin 0) Hneg).
Defined.

Lemma in_ellipse_t63_assigned {F} `{PyFloat F}
    (alpha delta0 alpha1 delta01 d0 axis_ratio PA0 : F) :
  in_ellipse alpha delta0 alpha1 delta01 d0 axis_ratio PA0
  = match t63_assigned alpha delta0 alpha1 delta01 d0 axis_ratio PA0 with
    | Some v => ltb (lit 0) v
    | None => false
    end.
Proof.
  rewrite in_ellipse_decisions. unfold t63_assigned.
  destruct (ltb (hemisphere alpha delta0 alpha1 delta01) (lit 0)); reflexivity.
Qed.

(** C3.  In every arithmetic [in_ellipse] answers true exactly when its
    variable [t63] is assigned a value that compares greater than zero;
    a [t63] that is exactly zero gives false, in exact arithmetic and in
    binary64 (for either zero, whatever [cos] and [sin] of the C library
    return). *)
Theorem in_ellipse_iff_t63_positive :
  (forall (F : Type) (HF : PyFloat F) (alpha delta0 alpha1 delta01 d0 axis_ratio PA0 : F),
      in_ellipse alpha delta0 alpha1 delta01 d0 axis_ratio PA0 = true
      <-> exists v, t63_assigned alpha delta0 alpha1 delta01 d0 axis_ratio PA0 = Some v
                    /\ ltb (lit 0) v = true)
  /\ (forall alpha delta0 alpha1 delta01 d0 axis_ratio PA0 : xreal,
      t63_assigned alpha delta0 alpha1 delta01 d0 axis_ratio PA0 = Some (Fin 0) ->
      in_ellipse alpha delta0 alpha1 delta01 d0 axis_ratio PA0 = false)
  /\ (forall (c s : float -> float) (a : float -> float -> float) (r : float -> float)
             (alpha delta0 alpha1 delta01 d0 axis_ratio PA0 v : float),
      @t63_assigned float (binary64 c s a r) alpha delta0 alpha1 delta01 d0 axis_ratio PA0
        = Some v ->
      v = PrimFloat.zero \/ v = PrimFloat.neg_zero ->
      @in_ellipse float (binary64 c s a r) alpha delta0 alpha1 delta01 d0 axis_ratio PA0
        = false).
Proof.
  split; [| split].
  - intros F HF alpha delta0 alpha1 delta01 d0 axis_ratio PA0.
    rewrite in_ellipse_t63_assigned.
    destruct (t63_assigned alpha delta0 alpha1 delta01 d0 axis_ratio PA0) as [v |]; split.
    + intros E. exists v. split; [reflexivity | exact E].
    + intros (v' & [= <-] & E). exact E.
    + discriminate.
    + intros (v' & [=] & _).
  - intros alpha delta0 alpha1 delta01 d0 axis_ratio PA0 Hz.
    rewrite in_ellipse_t63_assigned, Hz.
    cbn. destruct (Rlt_dec 0 0) as [L | L]; [lra | reflexivity].
  - intros c s a r alpha delta0 alpha1 delta01 d0 axis_ratio PA0 v Hv Hz.
    rewrite in_ellipse_t63_assigned, Hv. destruct Hz as [-> | ->]; reflexivity.
Qed.

(** A point where [t63] is exactly zero: the center of a circle whose
    radius is half a turn. *)
Lemma in_ellipse_iff_t63_positive_boundary :
  t63_assigned (Fin 0) (Fin 10) (Fin 0) (Fin 10) (Fin 180) (Fin 1) (Fin 0) = Some (Fin 0)
  /\ in_ellipse (Fin 0) (Fin 10) (Fin 0) (Fin 10) (Fin 180) (Fin 1) (Fin 0) = false.
Proof.
  assert (t63_assigned (Fin 0) (Fin 10) (Fin 0) (Fin 10) (Fin 180) (Fin 1) (Fin 0)
          = Some (Fin 0)) as Hz.
  { unfold t63_assigned. rewrite hemisphere_exact, dot_center.
    change (lit 0) with (Fin 0).
    destruct (ltb (Fin 1) (Fin 0)) eqn:E; [apply xltb_Fin in E; lra |].
    rewrite t63_exact by lra. do 2 f_equal. apply conic_center_180. }
  split; [exact Hz |].
  exact (proj1 (proj2 in_ellipse_iff_t63_positive) _ _ _ _ _ _ _ Hz).
Defined.
(** ** The formulas without rounding *)

(** What the two formulas compute when every operation is exact.  The
    notebook computes in binary64: what it does there is the subject of
    the last part of the file. *)
Section ExactFormulas.
Local Open Scope R_scope.

(** Without rounding, a point that is the center of the ellipse is
    inside for every positive scaled axis that is not a whole multiple of
    180 degrees, every axis ratio in (0, 1] and every position angle:
    there [t63 = b2a^2 * sin^2 d]. *)
Lemma in_ellipse_at_center_exact alpha delta0 d0 q PA0 :
  0 < d0 -> (forall k : Z, d0 <> IZR k * 180) ->
  0 < q <= 1 ->
  in_ellipse (Fin alpha) (Fin delta0) (Fin alpha) (Fin delta0) (Fin d0) (Fin q) (Fin PA0) = true.
Proof.
  intros _ Hk [Hq0 Hq1]. apply in_ellipse_center; [lra | nra | exact Hk].
Qed.

(** Without rounding, for a circle ([b2a = 1]) of scaled radius
    [d0 >= 0]: a point whose great-circle distance from the center
    exceeds [d0] is not inside. *)
Lemma in_ellipse_circle_outside_exact ra dec ra1 dec1 d0 PA0 s :
  0 <= d0 ->
  great_circle_distance (Fin ra) (Fin dec) (Fin ra1) (Fin dec1) = Fin s ->
  d0 < s ->
  in_ellipse (Fin ra) (Fin dec) (Fin ra1) (Fin dec1) (Fin d0) (Fin 1) (Fin PA0) = false.
Proof.
  intros Hd0 Hs Hlt.
  destruct (great_circle_distance_exact ra dec ra1 dec1) as (theta & E & [T0 T1] & C).
  rewrite E in Hs. injection Hs as <-.
  destruct (in_ellipse _ _ _ _ _ _ _) eqn:Hin; [| reflexivity].
  apply in_ellipse_exact in Hin as [Hdot Hconic]; [| lra].
  rewrite conic_circle, <- C in Hconic. rewrite <- C in Hdot.
  pose proof PI_RGT_0 as Hpi.
  assert (rad d0 < theta) as Hrad.
  { unfold rad. apply (Rmult_lt_compat_r (PI / 180)) in Hlt; [| lra].
    replace (theta * 180 / PI * (PI / 180)) with theta in Hlt by (field; lra). exact Hlt. }
  assert (0 <= rad d0) as Hrad0 by (unfold rad; nra).
  assert (theta <= PI / 2) as Hhalf.
  { destruct (Rle_dec theta (PI / 2)) as [L | L]; [exact L |].
    assert (Rtrigo_def.cos theta < 0) by (apply cos_lt_0; lra). lra. }
  assert (Rtrigo_def.cos theta < Rtrigo_def.cos (rad d0)) as Hcos
    by (apply cos_decreasing_1; lra).
  nra.
Qed.

(** Without rounding, past a quarter turn a larger margin turns true
    into false: the point 60 degrees from the center of a circle with
    [a = 30] is inside under the margin 3 (radius 90) and outside under
    the margin 6 (radius 180). *)
Lemma in_ellipse_margin_not_monotone_exact :
  0 < 30 /\ 0 < 3 <= 6
  /\ in_ellipse (Fin 60) (Fin 0) (Fin 0) (Fin 0) (mul (Fin 3) (Fin 30)) (Fin 1) (Fin 0) = true
  /\ in_ellipse (Fin 60) (Fin 0) (Fin 0) (Fin 0) (mul (Fin 6) (Fin 30)) (Fin 1) (Fin 0) = false.
Proof.
  assert (dot 60 0 0 0 = 1 / 2) as Hdot.
  { unfold dot, rad. replace ((0 - 60) * (PI / 180)) with (- (PI / 3)) by field.
    replace (0 * (PI / 180)) with 0 by ring.
    rewrite cos_neg, cos_PI3, cos_0, sin_0. lra. }
  split; [lra |]. split; [lra |]. cbn. split.
  - apply in_ellipse_exact; [lra |]. rewrite conic_circle, Hdot. unfold rad.
    replace (3 * 30 * (PI / 180)) with (PI / 2) by field. rewrite cos_PI2. lra.
  - destruct (in_ellipse _ _ _ _ _ _ _) eqn:E; [| reflexivity].
    apply in_ellipse_exact in E as [_ E]; [| lra].
    rewrite conic_circle, Hdot in E. unfold rad in E.
    replace (6 * 30 * (PI / 180)) with PI in E by field. rewrite cos_PI in E. lra.
Qed.

Lemma separation_sine_symmetric (c1 s1 c2 s2 cd sd : R) :
  s1 * s1 = 1 - c1 * c1 -> s2 * s2 = 1 - c2 * c2 -> sd * sd = 1 - cd * cd ->
  c2 * sd * (c2 * sd) + (c1 * s2 - s1 * c2 * cd) * (c1 * s2 - s1 * c2 * cd)
  = c1 * sd * (c1 * sd) + (c2 * s1 - s2 * c1 * cd) * (c2 * s1 - s2 * c1 * cd).
Proof. intros H1 H2 H3. ring [H1 H2 H3]. Qed.

(** Without rounding, [great_circle_distance] gives the same value when
    its two points are exchanged, for all inputs (NaN included): the
    first argument of [arctan2] is symmetric by the Pythagorean
    identities although its first square is not, the second one is
    symmetric as written. *)
Lemma great_circle_distance_symmetric_exact (ra1 dec1 ra2 dec2 : xreal) :
  great_circle_distance ra1 dec1 ra2 dec2 = great_circle_distance ra2 dec2 ra1 dec1.
Proof.
  unfold great_circle_distance. rewrite DEGRA_Fin.
  destruct ra1 as [ra1 |], dec1 as [dec1 |], ra2 as [ra2 |], dec2 as [dec2 |];
    cbn; try reflexivity.
  rewrite (Rabs_minus_sym (ra1 * (PI / 180)) (ra2 * (PI / 180))).
  set (dr := Rabs (ra2 * (PI / 180) - ra1 * (PI / 180))).
  rewrite (separation_sine_symmetric
             (Rtrigo_def.cos (dec1 * (PI / 180))) (Rtrigo_def.sin (dec1 * (PI / 180)))
             (Rtrigo_def.cos (dec2 * (PI / 180))) (Rtrigo_def.sin (dec2 * (PI / 180)))
             (Rtrigo_def.cos dr) (Rtrigo_def.sin dr)) by apply sin_sqr.
  replace (Rtrigo_def.sin (dec2 * (PI / 180)) * Rtrigo_def.sin (dec1 * (PI / 180))
           + Rtrigo_def.cos (dec2 * (PI / 180)) * Rtrigo_def.cos (dec1 * (PI / 180))
             * Rtrigo_def.cos dr)
    with (Rtrigo_def.sin (dec1 * (PI / 180)) * Rtrigo_def.sin (dec2 * (PI / 180))
          + Rtrigo_def.cos (dec1 * (PI / 180)) * Rtrigo_def.cos (dec2 * (PI / 180))
            * Rtrigo_def.cos dr) by ring.
  reflexivity.
Qed.

End ExactFormulas.

(** ** The matching loop *)

Section LoopFacts.
Context {F : Type} `{PyFloat F}.
Variables ra dec size_margin : F.

Lemma same_but_distance_refl (h : heap F) : same_but_distance h h.
Proof. intros l. destruct (h !! l); auto. Qed.

Lemma same_but_distance_trans (h1 h2 h3 : heap F) :
  same_but_distance h1 h2 -> same_but_distance h2 h3 -> same_but_distance h1 h3.
Proof.
  intros H12 H23 l. specialize (H12 l). specialize (H23 l).
  destruct (h1 !! l), (h2 !! l), (h3 !! l); try tauto.
  intros k Hk. rewrite H23, H12 by exact Hk. reflexivity.
Qed.

Lemma same_but_distance_insert (h : heap F) (c : loc) (d : dict F) (v : value F) :
  h !! c = Some d ->
  same_but_distance h (<[c := <["distance_arcsec" := v]> d]> h).
Proof.
  intros Hc l. destruct (decide (l = c)) as [-> | Hne].
  - rewrite Hc, lookup_insert_eq. intros k Hk. apply lookup_insert_ne. congruence.
  - rewrite lookup_insert_ne by congruence. destruct (h !! l); auto.
Qed.

Lemma same_but_distance_lookup (h h' : heap F) (l : loc) (k : string) :
  same_but_distance h h' -> k <> "distance_arcsec" ->
  h' !! l ≫= (.!! k) = h !! l ≫= (.!! k).
Proof.
  intros Hs Hk. specialize (Hs l). destruct (h !! l), (h' !! l); cbn; try tauto.
  apply Hs, Hk.
Qed.

Lemma num_field_lookup (h : heap F) (g : loc) (k : string) :
  num_field h g k = match h !! g ≫= (.!! k) with Some (VNum x) => Some x | _ => None end.
Proof. unfold num_field. destruct (h !! g); reflexivity. Qed.

Lemma coordinates_of_lookup (h : heap F) (g : loc) :
  coordinates_of h g
  = match h !! g ≫= (.!! "coordinates") with Some (VRef c) => Some c | _ => None end.
Proof. unfold coordinates_of. destruct (h !! g); reflexivity. Qed.

Lemma same_but_distance_num_field (h h' : heap F) (g : loc) (k : string) :
  same_but_distance h h' -> k <> "distance_arcsec" -> num_field h' g k = num_field h g k.
Proof.
  intros Hs Hk. rewrite !num_field_lookup, (same_but_distance_lookup h h') by assumption.
  reflexivity.
Qed.

Lemma same_but_distance_coordinates (h h' : heap F) (g : loc) :
  same_but_distance h h' -> coordinates_of h' g = coordinates_of h g.
Proof.
  intros Hs. rewrite !coordinates_of_lookup, (same_but_distance_lookup h h') by done.
  reflexivity.
Qed.

Lemma same_but_distance_passes (h h' : heap F) (g : loc) :
  same_but_distance h h' -> passes ra dec size_margin h' g = passes ra dec size_margin h g.
Proof.
  intros Hs. unfold passes. rewrite !(same_but_distance_num_field h h') by done.
  reflexivity.
Qed.

Lemma same_but_distance_record_ok (h h' : heap F) (g : loc) :
  same_but_distance h h' -> record_ok h' g = record_ok h g.
Proof.
  intros Hs. unfold record_ok, has_num, has_name, has_coordinates.
  rewrite !(same_but_distance_num_field h h'), (same_but_distance_lookup h h'),
    (same_but_distance_coordinates h h') by done.
  f_equal. destruct (coordinates_of h g) as [c |]; [cbn | reflexivity].
  specialize (Hs c). destruct (h !! c), (h' !! c); tauto.
Qed.

(** The statements of the loop, one at a time. *)
Lemma bind_getitem {A} (l : loc) (k : string) (f : value F -> py F A) (h : heap F) :
  py_bind (getitem l k) f h
  = match h !! l with
    | None => (h, inl Dangling)
    | Some d => match d !! k with
                | None => (h, inl (KeyError k))
                | Some v => f v h
                end
    end.
Proof. unfold py_bind, getitem. destruct (h !! l) as [d |]; [destruct (d !! k) |]; reflexivity. Qed.

Lemma bind_as_num {A} (v : value F) (f : F -> py F A) (h : heap F) :
  py_bind (as_num v) f h
  = match v with
    | VNum x => f x h
    | _ => (h, inl TypeError)
    end.
Proof. destruct v; reflexivity. Qed.

Lemma bind_setitem {A} (v : value F) (k : string) (x : value F) (f : unit -> py F A)
    (h : heap F) :
  py_bind (setitem v k x) f h
  = match v with
    | VRef l => match h !! l with
                | None => (h, inl Dangling)
                | Some d => f tt (<[l := <[k := x]> d]> h)
                end
    | _ => (h, inl TypeError)
    end.
Proof. unfold py_bind, setitem. destruct v as [| | | | l]; try reflexivity. destruct (h !! l); reflexivity. Qed.

(** What one iteration does: nothing, or an exception, or the
    annotation of the dict under ["coordinates"] and one more match. *)
Lemma loop_body_cases (g : loc) (ms : list loc) (h : heap F) :
  (passes ra dec size_margin h g = false /\ loop_body ra dec size_margin g ms h = (h, inr ms))
  \/ (exists e, loop_body ra dec size_margin g ms h = (h, inl e))
  \/ (passes ra dec size_margin h g = true
      /\ exists c d x,
          coordinates_of h g = Some c /\ h !! c = Some d
          /\ distance_arcsec_of ra dec h g = Some x
          /\ loop_body ra dec size_margin g ms h
             = (<[c := <["distance_arcsec" := VNum x]> d]> h, inr (ms ++ [g]))).
Proof.
  unfold loop_body, passes, coordinates_of, distance_arcsec_of, num_field.
  rewrite bind_getitem.
  destruct (h !! g) as [dg |] eqn:Hg; [| right; left; eauto].
  destruct (dg !! "ra") as [v_ra |]; [| right; left; eauto].
  rewrite bind_getitem, Hg.
  destruct (dg !! "dec") as [v_dec |]; [| right; left; eauto].
  rewrite bind_getitem, Hg.
  destruct (dg !! "a") as [v_a |]; [| right; left; eauto].
  rewrite bind_getitem, Hg.
  destruct (dg !! "b2a") as [v_b2a |]; [| right; left; eauto].
  rewrite bind_getitem, Hg.
  destruct (dg !! "pa") as [v_pa |]; [| right; left; eauto].
  rewrite bind_as_num. destruct v_a as [d0 | | | |]; try (right; left; eauto; fail).
  rewrite bind_as_num. destruct v_b2a as [axis_ratio | | | |]; try (right; left; eauto; fail).
  rewrite bind_as_num. destruct v_pa as [PA0 | | | |]; try (right; left; eauto; fail).
  rewrite bind_as_num. destruct v_ra as [alpha1 | | | |]; try (right; left; eauto; fail).
  rewrite bind_as_num. destruct v_dec as [delta01 | | | |]; try (right; left; eauto; fail).
  destruct (in_galaxy ra dec size_margin alpha1 delta01 d0 axis_ratio PA0) eqn:Hin;
    [| left; auto].
  rewrite bind_getitem, Hg. destruct (dg !! "name"); [| right; left; eauto].
  rewrite bind_getitem, Hg.
  destruct (dg !! "coordinates") as [v_c |]; [| right; left; eauto].
  rewrite bind_setitem. destruct v_c as [| | | | c]; try (right; left; eauto; fail).
  destruct (h !! c) as [d |] eqn:Hc; [| right; left; eauto].
  right; right. split; [reflexivity |]. eauto 10.
Qed.

Lemma loop_body_result (g : loc) (ms ms' : list loc) (h : heap F) :
  snd (loop_body ra dec size_margin g ms h) = inr ms' ->
  ms' = if passes ra dec size_margin h g then ms ++ [g] else ms.
Proof.
  destruct (loop_body_cases g ms h)
    as [[Hp ->] | [[e ->] | (Hp & c & d & x & _ & _ & _ & ->)]]; cbn; try rewrite Hp; congruence.
Qed.

Lemma has_num_true (h : heap F) (g : loc) (k : string) (dg : dict F) :
  h !! g = Some dg -> has_num h g k = true -> exists x, dg !! k = Some (VNum x).
Proof.
  unfold has_num, num_field. intros ->.
  destruct (dg !! k) as [[x | | | |] |]; try discriminate. eauto.
Qed.

Lemma record_ok_fields (h : heap F) (g : loc) :
  record_ok h g = true ->
  exists dg alpha1 delta01 d0 axis_ratio PA0 name c d,
    h !! g = Some dg
    /\ dg !! "ra" = Some (VNum alpha1) /\ dg !! "dec" = Some (VNum delta01)
    /\ dg !! "a" = Some (VNum d0) /\ dg !! "b2a" = Some (VNum axis_ratio)
    /\ dg !! "pa" = Some (VNum PA0) /\ dg !! "name" = Some name
    /\ dg !! "coordinates" = Some (VRef c) /\ h !! c = Some d.
Proof.
  unfold record_ok. rewrite !andb_true_iff.
  intros [[[[[[Hra Hdec] Ha] Hb2a] Hpa] Hname] Hc].
  destruct (h !! g) as [dg |] eqn:Hg;
    [| unfold has_name in Hname; rewrite Hg in Hname; discriminate].
  destruct (has_num_true h g "ra" dg Hg Hra) as [alpha1 Era].
  destruct (has_num_true h g "dec" dg Hg Hdec) as [delta01 Edec].
  destruct (has_num_true h g "a" dg Hg Ha) as [d0 Ea].
  destruct (has_num_true h g "b2a" dg Hg Hb2a) as [axis_ratio Eb2a].
  destruct (has_num_true h g "pa" dg Hg Hpa) as [PA0 Epa].
  unfold has_name in Hname. rewrite Hg in Hname. cbn in Hname.
  destruct (dg !! "name") as [name |] eqn:Ename; [| discriminate].
  unfold has_coordinates, coordinates_of in Hc. rewrite Hg in Hc.
  destruct (dg !! "coordinates") as [[| | | | c] |] eqn:Ec; try discriminate.
  cbn in Hc. destruct (h !! c) as [d |] eqn:Ed; [| discriminate].
  exists dg, alpha1, delta01, d0, axis_ratio, PA0, name, c, d. tauto.
Qed.

(** On a record of the expected shape an iteration raises nothing. *)
Lemma loop_body_ok (g : loc) (ms : list loc) (h : heap F) :
  record_ok h g = true ->
  loop_body ra dec size_margin g ms h
  = if passes ra dec size_margin h g
    then (annotate ra dec h g, inr (ms ++ [g]))
    else (h, inr ms).
Proof.
  intros Hok.
  destruct (record_ok_fields h g Hok)
    as (dg & alpha1 & delta01 & d0 & axis_ratio & PA0 & name & c & d
        & Hg & Hra & Hdec & Ha & Hb2a & Hpa & Hname & Hc & Hd).
  unfold loop_body, passes, annotate, coordinates_of, distance_arcsec_of, num_field.
  rewrite bind_getitem, Hg, Hra, bind_getitem, Hg, Hdec, bind_getitem, Hg, Ha,
    bind_getitem, Hg, Hb2a, bind_getitem, Hg, Hpa, !bind_as_num.
  destruct (in_galaxy ra dec size_margin alpha1 delta01 d0 axis_ratio PA0); [| reflexivity].
  rewrite bind_getitem, Hg, Hname, bind_getitem, Hg, Hc, bind_setitem, Hd. reflexivity.
Qed.


Lemma annotate_same (h : heap F) (g : loc) : same_but_distance h (annotate ra dec h g).
Proof.
  unfold annotate.
  destruct (coordinates_of h g) as [c |]; [| apply same_but_distance_refl].
  destruct (distance_arcsec_of ra dec h g) as [x |]; [| apply same_but_distance_refl].
  destruct (h !! c) as [d |] eqn:Hc; [| apply same_but_distance_refl].
  apply same_but_distance_insert, Hc.
Qed.

Lemma filter_passes_same (h h' : heap F) (gs : list loc) :
  same_but_distance h h' ->
  List.filter (passes ra dec size_margin h') gs = List.filter (passes ra dec size_margin h) gs.
Proof.
  intros Hs. apply List.filter_ext. intros g. apply same_but_distance_passes, Hs.
Qed.

Lemma forallb_record_ok_same (h h' : heap F) (gs : list loc) :
  same_but_distance h h' ->
  forallb (record_ok h') gs = forallb (record_ok h) gs.
Proof.
  intros Hs. induction gs as [| g gs IH]; [reflexivity |].
  cbn. rewrite IH, (same_but_distance_record_ok h h') by exact Hs. reflexivity.
Qed.

(** The loop on records of the expected shape: the matches are the
    records that pass, in order, each annotated in its turn. *)
Lemma match_loop_ok (galaxies ms : list loc) (h : heap F) :
  forallb (record_ok h) galaxies = true ->
  match_loop ra dec size_margin galaxies ms h
  = (fold_left (annotate ra dec) (List.filter (passes ra dec size_margin h) galaxies) h,
     inr (ms ++ List.filter (passes ra dec size_margin h) galaxies)).
Proof.
  revert ms h. induction galaxies as [| g rest IH]; intros ms h Hok.
  - cbn. rewrite app_nil_r. reflexivity.
  - cbn in Hok. apply andb_true_iff in Hok as [Hg Hrest].
    cbn [match_loop List.filter]. unfold py_bind. rewrite (loop_body_ok g ms h Hg).
    destruct (passes ra dec size_margin h g).
    + pose proof (annotate_same h g) as Hs.
      rewrite IH by (rewrite (forallb_record_ok_same h); assumption).
      rewrite (filter_passes_same h) by exact Hs.
      cbn. rewrite <- app_assoc. reflexivity.
    + apply IH, Hrest.
Qed.

(** Every run of the loop, also one that raises. *)
Lemma match_loop_frame (galaxies ms : list loc) (h : heap F) :
  same_but_distance h (fst (match_loop ra dec size_margin galaxies ms h)).
Proof.
  revert ms h. induction galaxies as [| g rest IH]; intros ms h.
  - apply same_but_distance_refl.
  - cbn [match_loop]. unfold py_bind.
    destruct (loop_body_cases g ms h)
      as [[_ ->] | [[e ->] | (_ & c & d & x & _ & Hc & _ & ->)]].
    + apply IH.
    + apply same_but_distance_refl.
    + eapply same_but_distance_trans; [| apply IH].
      apply same_but_distance_insert, Hc.
Qed.

Lemma match_loop_untouched (galaxies ms : list loc) (h : heap F) (l : loc) :
  (forall g, In g galaxies -> passes ra dec size_margin h g = true ->
             coordinates_of h g <> Some l) ->
  fst (match_loop ra dec size_margin galaxies ms h) !! l = h !! l.
Proof.
  revert ms h. induction galaxies as [| g rest IH]; intros ms h Hl.
  - reflexivity.
  - cbn [match_loop]. unfold py_bind.
    destruct (loop_body_cases g ms h)
      as [[_ ->] | [[e ->] | (Hp & c & d & x & Hg & Hc & _ & ->)]].
    + apply IH. intros g' Hin. apply Hl. right. exact Hin.
    + reflexivity.
    + pose proof (same_but_distance_insert h c d (VNum x) Hc) as Hs.
      rewrite IH.
      * apply lookup_insert_ne. intros ->. apply (Hl g); [left; reflexivity | exact Hp | exact Hg].
      * intros g' Hin. rewrite (same_but_distance_passes h), (same_but_distance_coordinates h)
          by exact Hs.
        apply Hl. right. exact Hin.
Qed.

Lemma match_loop_result (galaxies ms ms' : list loc) (h : heap F) :
  snd (match_loop ra dec size_margin galaxies ms h) = inr ms' ->
  ms' = ms ++ List.filter (passes ra dec size_margin h) galaxies.
Proof.
  revert ms h. induction galaxies as [| g rest IH]; intros ms h.
  - cbn. rewrite app_nil_r. congruence.
  - cbn [match_loop List.filter]. unfold py_bind.
    destruct (loop_body_cases g ms h)
      as [[Hp ->] | [[e ->] | (Hp & c & d & x & _ & Hc & _ & ->)]].
    + rewrite Hp. apply IH.
    + discriminate.
    + rewrite Hp. intros Hr. apply IH in Hr.
      rewrite (filter_passes_same h) in Hr by (apply same_but_distance_insert, Hc).
      rewrite Hr, <- app_assoc. reflexivity.
Qed.

Lemma match_loop_keeps_annotated (galaxies ms : list loc) (h : heap F) (c : loc) :
  annotated h c -> annotated (fst (match_loop ra dec size_margin galaxies ms h)) c.
Proof.
  revert ms h. induction galaxies as [| g rest IH]; intros ms h Hc.
  - exact Hc.
  - cbn [match_loop]. unfold py_bind.
    destruct (loop_body_cases g ms h)
      as [[_ ->] | [[e ->] | (_ & c' & d' & x' & _ & Hc' & _ & ->)]].
    + apply IH, Hc.
    + exact Hc.
    + apply IH. destruct (decide (c = c')) as [-> | Hne].
      * exists (<["distance_arcsec" := VNum x']> d'), x'.
        rewrite !lookup_insert_eq. auto.
      * destruct Hc as (d & x & Hd & Hx). exists d, x.
        rewrite lookup_insert_ne by congruence. auto.
Qed.

Lemma match_loop_annotated (galaxies ms ms' : list loc) (h : heap F) (g : loc) :
  snd (match_loop ra dec size_margin galaxies ms h) = inr ms' ->
  In g (List.filter (passes ra dec size_margin h) galaxies) ->
  exists c, coordinates_of h g = Some c
            /\ annotated (fst (match_loop ra dec size_margin galaxies ms h)) c.
Proof.
  revert ms h. induction galaxies as [| g0 rest IH]; intros ms h.
  - intros _ [].
  - cbn [match_loop List.filter]. unfold py_bind.
    destruct (loop_body_cases g0 ms h)
      as [[Hp ->] | [[e ->] | (Hp & c & d & x & Hg & Hc & _ & ->)]].
    + rewrite Hp. apply IH.
    + discriminate.
    + rewrite Hp. intros Hr Hin.
      pose proof (same_but_distance_insert h c d (VNum x) Hc) as Hs.
      destruct Hin as [<- | Hin].
      * exists c. split; [exact Hg |]. apply match_loop_keeps_annotated.
        exists (<["distance_arcsec" := VNum x]> d), x. rewrite !lookup_insert_eq. auto.
      * rewrite <- (filter_passes_same h _ rest Hs) in Hin.
        destruct (IH _ _ Hr Hin) as (c' & Hc' & Ha).
        exists c'. split; [| exact Ha].
        rewrite <- Hc'. symmetry. apply same_but_distance_coordinates, Hs.
Qed.

End LoopFacts.

(** ** Default substitution *)

Lemma in_galaxy_with_default {F} `{PyFloat F}
    (ra dec size_margin alpha1 delta01 d0 axis_ratio PA0 : F) :
  in_galaxy ra dec size_margin alpha1 delta01 d0 axis_ratio PA0
  = in_ellipse ra dec alpha1 delta01
      (mul size_margin (with_default (lit 0.0265889) d0))
      (with_default (lit 0.61) axis_ratio)
      (with_default (lit 86.0) PA0).
Proof. reflexivity. Qed.

Section ExactDefaults.
Local Open Scope R_scope.

Lemma is_missing_Fin x : is_missing (Fin x) = true <-> x < -990.
Proof.
  unfold is_missing. cbn. destruct (Rlt_dec x (- (990))) as [L | L]; cbn; split; intros E;
    try lra; try discriminate; reflexivity.
Qed.

Lemma with_default_sentinel default x : x < -990 -> with_default default (Fin x) = default.
Proof. intros Hx. unfold with_default. apply is_missing_Fin in Hx. rewrite Hx. reflexivity. Qed.

Lemma with_default_present default x : -990 <= x -> with_default default (Fin x) = Fin x.
Proof.
  intros Hx. unfold with_default. destruct (is_missing (Fin x)) eqn:E; [| reflexivity].
  apply is_missing_Fin in E. lra.
Qed.

Lemma with_default_NaN default : with_default default NaN = default.
Proof. reflexivity. Qed.

End ExactDefaults.


(** ** The records of the notebook under the loop *)

Section NotebookRuns.
Local Open Scope R_scope.

(** A supernova at the very center of NED01: the record has no shape
    ([a], [b2a] NaN, [pa] -999), the medians stand in, and it passes. *)
Lemma NED01_passes_at_center :
  passes (Fin 106.99741666666999) (Fin 31.663861111110002) (lit 3) notebook_heap 1%positive
  = true.
Proof.
  change (passes (Fin 106.99741666666999) (Fin 31.663861111110002) (lit 3)
            notebook_heap 1%positive)
    with (in_galaxy (Fin 106.99741666666999) (Fin 31.663861111110002) (lit 3)
            (Fin 106.99741666666999) (Fin 31.663861111110002) NaN NaN (Fin (-999))).
  rewrite in_galaxy_with_default, !with_default_NaN, with_default_sentinel by lra.
  cbn. apply in_ellipse_center; [lra | lra |]. apply not_multiple_of_180. lra.
Qed.

Lemma NED01_run :
  cell12 (Fin 106.99741666666999) (Fin 31.663861111110002) (lit 3) [1%positive] notebook_heap
  = (annotate (Fin 106.99741666666999) (Fin 31.663861111110002) notebook_heap 1%positive,
     inr [1%positive]).
Proof.
  unfold cell12. rewrite match_loop_ok by (vm_compute; reflexivity).
  cbn [List.filter]. rewrite NED01_passes_at_center. reflexivity.
Qed.

(** The separation of that supernova from NED01 is zero, and that is
    what the loop writes. *)
Lemma NED01_annotation :
  annotate (Fin 106.99741666666999) (Fin 31.663861111110002) notebook_heap 1%positive
  = <[2%positive := <["distance_arcsec" := VNum (Fin 0)]> NED01_coordinates]> notebook_heap.
Proof.
  unfold annotate.
  replace (coordinates_of notebook_heap 1%positive) with (Some 2%positive)
    by (vm_compute; reflexivity).
  unfold distance_arcsec_of.
  replace (num_field notebook_heap 1%positive "ra") with (Some (Fin 106.99741666666999))
    by (vm_compute; reflexivity).
  replace (num_field notebook_heap 1%positive "dec") with (Some (Fin 31.663861111110002))
    by (vm_compute; reflexivity).
  rewrite great_circle_distance_self.
  replace (mul (Fin 0) (lit 3600)) with (Fin 0) by (cbn; f_equal; lra).
  rewrite round2_zero.
  replace (notebook_heap !! 2%positive) with (Some NED01_coordinates)
    by (vm_compute; reflexivity).
  reflexivity.
Qed.

End NotebookRuns.

(** ** Default substitution in the loop *)

(** C1.  In every arithmetic, for every record of the expected shape
    the loop processes: each of [a], [b2a], [pa] is tested on its own, a
    value below -990 or NaN is replaced by the default of its field
    (0.0265889, 0.61, 86.0), any other value is passed as it is, and the
    record is kept exactly when [in_ellipse] is true of the values so
    obtained.  A record with [a = -999], [b2a = NaN], [pa = -999] is
    tested as the record with [a = 0.0265889], [b2a = 0.61], [pa = 86.0]
    is, in exact arithmetic and in binary64. *)
Theorem default_substitution :
  (forall (F : Type) (HF : PyFloat F) (ra dec size_margin : F)
          (galaxy : loc) (matches : list loc) (h : heap F)
          (alpha1 delta01 d0 axis_ratio PA0 : F),
      record_ok h galaxy = true ->
      num_field h galaxy "ra" = Some alpha1 ->
      num_field h galaxy "dec" = Some delta01 ->
      num_field h galaxy "a" = Some d0 ->
      num_field h galaxy "b2a" = Some axis_ratio ->
      num_field h galaxy "pa" = Some PA0 ->
      snd (loop_body ra dec size_margin galaxy matches h)
      = inr (if in_ellipse ra dec alpha1 delta01
                  (mul size_margin (if ltb d0 (neg (lit 990)) || np_isnan d0
                                    then lit 0.0265889 else d0))
                  (if ltb axis_ratio (neg (lit 990)) || np_isnan axis_ratio
                   then lit 0.61 else axis_ratio)
                  (if ltb PA0 (neg (lit 990)) || np_isnan PA0 then lit 86.0 else PA0)
             then matches ++ [galaxy] else matches))
  /\ (forall ra dec size_margin alpha1 delta01 : xreal,
      in_galaxy ra dec size_margin alpha1 delta01 (lit (-999)) NaN (lit (-999))
      = in_galaxy ra dec size_margin alpha1 delta01 (lit 0.0265889) (lit 0.61) (lit 86.0))
  /\ (forall (c s : float -> float) (a : float -> float -> float) (r : float -> float)
             (ra dec size_margin alpha1 delta01 : float),
      @in_galaxy float (binary64 c s a r) ra dec size_margin alpha1 delta01
        (float_lit (-999)) PrimFloat.nan (float_lit (-999))
      = @in_galaxy float (binary64 c s a r) ra dec size_margin alpha1 delta01
          (float_lit 0.0265889) (float_lit 0.61) (float_lit 86.0)).
Proof.
  split; [| split].
  - intros F HF ra dec size_margin galaxy matches h alpha1 delta01 d0 axis_ratio PA0
      Hok Hra Hdec Ha Hb2a Hpa.
    rewrite (loop_body_ok ra dec size_margin galaxy matches h Hok).
    unfold passes. rewrite Hra, Hdec, Ha, Hb2a, Hpa. unfold in_galaxy.
    destruct (in_ellipse _ _ _ _ _ _ _); reflexivity.
  - intros ra dec size_margin alpha1 delta01.
    rewrite !in_galaxy_with_default. change (lit (-999)) with (Fin (-999)).
    rewrite with_default_NaN, !with_default_sentinel by lra.
    change (lit 0.0265889) with (Fin (265889 / 10000000)).
    change (lit 0.61) with (Fin (61 / 100)).
    change (lit 86.0) with (Fin (860 / 10)).
    rewrite !with_default_present by lra. reflexivity.
  - intros c s a r ra dec size_margin alpha1 delta01. reflexivity.
Qed.

(** NED01 ([a], [b2a] NaN, [pa] -999) under a supernova at its center. *)
Lemma default_substitution_NED01 :
  snd (loop_body (Fin 106.99741666666999) (Fin 31.663861111110002) (lit 3) 1%positive []
         notebook_heap)
  = inr (if in_ellipse (Fin 106.99741666666999) (Fin 31.663861111110002)
              (Fin 106.99741666666999) (Fin 31.663861111110002)
              (mul (lit 3) (if ltb NaN (neg (lit 990)) || np_isnan NaN
                            then lit 0.0265889 else NaN))
              (if ltb NaN (neg (lit 990)) || np_isnan NaN then lit 0.61 else NaN)
              (if ltb (Fin (-999)) (neg (lit 990)) || np_isnan (Fin (-999))
               then lit 86.0 else Fin (-999))
         then [] ++ [1%positive] else []).
Proof.
  apply (proj1 default_substitution xreal xreal_float
           (Fin 106.99741666666999) (Fin 31.663861111110002) (lit 3)
           1%positive [] notebook_heap).
  - vm_compute. reflexivity.
  - vm_compute. reflexivity.
  - vm_compute. reflexivity.
  - vm_compute. reflexivity.
  - vm_compute. reflexivity.
  - vm_compute. reflexivity.
Defined.

(** ** The matching loop: order, aliasing, raw values *)

(** C9.  On records of the expected shape, the loop returns the
    references of the candidates that pass the ellipse test, in the order
    of the input, each as often as it occurs in the input. *)
Theorem cell12_stable_filter {F} `{PyFloat F} (ra dec size_margin : F)
    (galaxies : list loc) (h : heap F) :
  forallb (record_ok h) galaxies = true ->
  snd (cell12 ra dec size_margin galaxies h)
  = inr (List.filter (passes ra dec size_margin h) galaxies).
Proof.
  intros Hok. unfold cell12. rewrite match_loop_ok by exact Hok. reflexivity.
Qed.

(** The supernova of the notebook against NED01, M31 and M33. *)
Lemma cell12_stable_filter_notebook :
  snd (cell12 (Fin 106.996905) (Fin 31.665367) (lit 3)
         [1%positive; 3%positive; 5%positive] notebook_heap)
  = inr (List.filter (passes (Fin 106.996905) (Fin 31.665367) (lit 3) notebook_heap)
           [1%positive; 3%positive; 5%positive]).
Proof.
  apply (cell12_stable_filter (Fin 106.996905) (Fin 31.665367) (lit 3)
           [1%positive; 3%positive; 5%positive] notebook_heap).
  vm_compute. reflexivity.
Defined.

(** A record listed twice is matched twice. *)
Lemma cell12_keeps_duplicates :
  snd (cell12 (Fin 106.99741666666999) (Fin 31.663861111110002) (lit 3)
         [1%positive; 1%positive] notebook_heap)
  = inr [1%positive; 1%positive].
Proof.
  unfold cell12. rewrite match_loop_ok by (vm_compute; reflexivity).
  cbn [List.filter snd]. rewrite NED01_passes_at_center. reflexivity.
Qed.

(** If the loop returns at all, it returns that list. *)
Lemma cell12_result {F} `{PyFloat F} (ra dec size_margin : F)
    (galaxies ms : list loc) (h : heap F) :
  snd (cell12 ra dec size_margin galaxies h) = inr ms ->
  ms = List.filter (passes ra dec size_margin h) galaxies.
Proof. unfold cell12. intros Hr. apply match_loop_result in Hr. exact Hr. Qed.

(** C5, as stated: after the loop every candidate record, nested fields
    included, holds the values it held before.  It fails on NED01: the
    dict under its ["coordinates"] is not what it was, the loop has put
    ["distance_arcsec"] into it. *)
Lemma cell12_mutates_candidate :
  snd (cell12 (Fin 106.99741666666999) (Fin 31.663861111110002) (lit 3)
         [1%positive] notebook_heap) = inr [1%positive]
  /\ coordinates_of notebook_heap 1%positive = Some 2%positive
  /\ notebook_heap !! 2%positive = Some NED01_coordinates
  /\ fst (cell12 (Fin 106.99741666666999) (Fin 31.663861111110002) (lit 3)
            [1%positive] notebook_heap) !! 2%positive
     = Some (<["distance_arcsec" := VNum (Fin 0)]> NED01_coordinates)
  /\ fst (cell12 (Fin 106.99741666666999) (Fin 31.663861111110002) (lit 3)
            [1%positive] notebook_heap) !! 2%positive
     <> notebook_heap !! 2%positive.
Proof.
  rewrite NED01_run, NED01_annotation. cbn [fst snd]. rewrite lookup_insert_eq.
  assert (notebook_heap !! 2%positive = Some NED01_coordinates) as E
    by (vm_compute; reflexivity).
  split; [reflexivity |]. split; [vm_compute; reflexivity |]. split; [exact E |].
  split; [reflexivity |].
  rewrite E. intros E'.
  apply (f_equal (fun o : option (dict xreal) => o ≫= (.!! "distance_arcsec"))) in E'.
  cbn [mbind option_bind] in E'. rewrite lookup_insert_eq in E'.
  vm_compute in E'. discriminate.
Qed.

(** C5, amended.  In every arithmetic and for every run of the loop
    (one that raises included): the matches are references to the
    candidate records themselves, not copies; the loop writes
    ["distance_arcsec"] into the dict under ["coordinates"] of each
    candidate that passes, and nothing else: no dict appears or
    disappears, every other key of every dict keeps its value, and a dict
    that is not the ["coordinates"] of a passing candidate is left as it
    was. *)
Theorem cell12_annotates_in_place {F} `{PyFloat F} (ra dec size_margin : F)
    (galaxies : list loc) (h : heap F) :
  same_but_distance h (fst (cell12 ra dec size_margin galaxies h))
  /\ (forall l : loc,
        (forall g, In g galaxies -> passes ra dec size_margin h g = true ->
                   coordinates_of h g <> Some l) ->
        fst (cell12 ra dec size_margin galaxies h) !! l = h !! l)
  /\ (forall ms : list loc,
        snd (cell12 ra dec size_margin galaxies h) = inr ms ->
        forall g, In g ms ->
          In g galaxies
          /\ exists c, coordinates_of h g = Some c
                       /\ annotated (fst (cell12 ra dec size_margin galaxies h)) c).
Proof.
  split; [apply match_loop_frame |]. split; [intros l; apply match_loop_untouched |].
  intros ms Hr g Hg. pose proof (cell12_result ra dec size_margin galaxies ms h Hr) as ->.
  split; [apply List.filter_In in Hg; tauto |].
  unfold cell12 in *. exact (match_loop_annotated ra dec size_margin galaxies [] _ h g Hr Hg).
Qed.

(** The run on NED01 changes no key but ["distance_arcsec"]. *)
Lemma cell12_annotates_in_place_NED01 :
  same_but_distance notebook_heap
    (fst (cell12 (Fin 106.99741666666999) (Fin 31.663861111110002) (lit 3)
            [1%positive] notebook_heap)).
Proof.
  exact (proj1 (cell12_annotates_in_place (Fin 106.99741666666999) (Fin 31.663861111110002)
                  (lit 3) [1%positive] notebook_heap)).
Defined.

(** C10.  In every arithmetic, a record the loop returns still holds,
    after the loop, what it held before under every key other than
    ["distance_arcsec"]: in particular the raw [a], [b2a], [pa], not the
    defaults; and those raw values, once the defaults have replaced the
    missing ones, are what passed the ellipse test. *)
Theorem cell12_keeps_raw_shape {F} `{PyFloat F} (ra dec size_margin : F)
    (galaxies ms : list loc) (h : heap F) (g : loc) :
  snd (cell12 ra dec size_margin galaxies h) = inr ms ->
  In g ms ->
  (forall k : string, k <> "distance_arcsec" ->
     fst (cell12 ra dec size_margin galaxies h) !! g ≫= (.!! k) = h !! g ≫= (.!! k))
  /\ exists alpha1 delta01 d0 axis_ratio PA0,
       num_field (fst (cell12 ra dec size_margin galaxies h)) g "ra" = Some alpha1
       /\ num_field (fst (cell12 ra dec size_margin galaxies h)) g "dec" = Some delta01
       /\ num_field (fst (cell12 ra dec size_margin galaxies h)) g "a" = Some d0
       /\ num_field (fst (cell12 ra dec size_margin galaxies h)) g "b2a" = Some axis_ratio
       /\ num_field (fst (cell12 ra dec size_margin galaxies h)) g "pa" = Some PA0
       /\ in_ellipse ra dec alpha1 delta01
            (mul size_margin (with_default (lit 0.0265889) d0))
            (with_default (lit 0.61) axis_ratio)
            (with_default (lit 86.0) PA0) = true.
Proof.
  intros Hr Hg. pose proof (match_loop_frame ra dec size_margin galaxies [] h) as Hs.
  fold (cell12 ra dec size_margin galaxies h) in Hs.
  split; [intros k Hk; apply same_but_distance_lookup; assumption |].
  pose proof (cell12_result ra dec size_margin galaxies ms h Hr) as ->.
  apply List.filter_In in Hg as [_ Hp]. unfold passes in Hp.
  rewrite (same_but_distance_num_field h _ g "ra"), (same_but_distance_num_field h _ g "dec"),
    (same_but_distance_num_field h _ g "a"), (same_but_distance_num_field h _ g "b2a"),
    (same_but_distance_num_field h _ g "pa") by (exact Hs || done).
  destruct (num_field h g "ra") as [alpha1 |]; [| discriminate].
  destruct (num_field h g "dec") as [delta01 |]; [| discriminate].
  destruct (num_field h g "a") as [d0 |]; [| discriminate].
  destruct (num_field h g "b2a") as [axis_ratio |]; [| discriminate].
  destruct (num_field h g "pa") as [PA0 |]; [| discriminate].
  exists alpha1, delta01, d0, axis_ratio, PA0. rewrite <- in_galaxy_with_default.
  repeat split; try reflexivity. exact Hp.
Qed.

(** NED01 after the loop: still [a = NaN], [b2a = NaN], [pa = -999]. *)
Lemma cell12_keeps_raw_shape_NED01 :
  num_field notebook_heap 1%positive "a" = Some NaN
  /\ num_field notebook_heap 1%positive "b2a" = Some NaN
  /\ num_field notebook_heap 1%positive "pa" = Some (Fin (-999))
  /\ (forall k : string, k <> "distance_arcsec" ->
        fst (cell12 (Fin 106.99741666666999) (Fin 31.663861111110002) (lit 3)
               [1%positive] notebook_heap) !! 1%positive ≫= (.!! k)
        = notebook_heap !! 1%positive ≫= (.!! k)).
Proof.
  split; [vm_compute; reflexivity |]. split; [vm_compute; reflexivity |].
  split; [vm_compute; reflexivity |].
  refine (proj1 (cell12_keeps_raw_shape (Fin 106.99741666666999) (Fin 31.663861111110002)
                   (lit 3) [1%positive] [1%positive] notebook_heap 1%positive _ _)).
  - rewrite NED01_run. reflexivity.
  - left. reflexivity.
Defined.

(** * Further properties of the routines *)

(** ** The ellipse test in exact arithmetic: signs and circles *)

Section ExactEllipseInvariance.
Local Open Scope R_scope.

(** The answer on finite numbers, as a function of [dot] and [conic]. *)
Lemma in_ellipse_Fin alpha delta0 alpha1 delta01 d0 q PA0 :
  q * q <= 1 ->
  in_ellipse (Fin alpha) (Fin delta0) (Fin alpha1) (Fin delta01) (Fin d0) (Fin q) (Fin PA0)
  = if Rlt_dec (dot alpha delta0 alpha1 delta01) 0 then false
    else if Rlt_dec 0 (conic alpha delta0 alpha1 delta01 d0 q PA0) then true else false.
Proof.
  intros Hq. rewrite in_ellipse_decisions, hemisphere_exact, (t63_exact _ _ _ _ _ _ _ Hq).
  cbn. destruct (Rlt_dec (dot alpha delta0 alpha1 delta01) 0); reflexivity.
Qed.

(** In exact arithmetic the answer depends on the arguments only through
    the square of the axis ratio, the scalar product and the conic. *)
Lemma in_ellipse_ext a d a1 d1 d0 q PA a' d' a1' d1' d0' q' PA' :
  q * q = q' * q' ->
  dot a d a1 d1 = dot a' d' a1' d1' ->
  conic a d a1 d1 d0 q PA = conic a' d' a1' d1' d0' q' PA' ->
  in_ellipse (Fin a) (Fin d) (Fin a1) (Fin d1) (Fin d0) (Fin q) (Fin PA)
  = in_ellipse (Fin a') (Fin d') (Fin a1') (Fin d1') (Fin d0') (Fin q') (Fin PA').
Proof.
  intros Hq Hdot Hconic.
  destruct (Rle_dec (q * q) 1) as [H1 | H1].
  - rewrite !in_ellipse_Fin by lra. rewrite Hdot, Hconic. reflexivity.
  - rewrite !in_ellipse_wide_ratio by lra. reflexivity.
Qed.

Lemma rad_opp x : rad (- x) = - rad x.
Proof. unfold rad. ring. Qed.

(** X5.  The sign of the semi-major axis and the sign of the axis ratio are
    ignored: the semi-major axis enters through the square of its sine
    and the ratio through its square. *)
Theorem in_ellipse_signs alpha delta0 alpha1 delta01 d0 q PA0 :
  in_ellipse (Fin alpha) (Fin delta0) (Fin alpha1) (Fin delta01) (Fin (- d0)) (Fin q) (Fin PA0)
  = in_ellipse (Fin alpha) (Fin delta0) (Fin alpha1) (Fin delta01) (Fin d0) (Fin q) (Fin PA0)
  /\ in_ellipse (Fin alpha) (Fin delta0) (Fin alpha1) (Fin delta01) (Fin d0) (Fin (- q)) (Fin PA0)
     = in_ellipse (Fin alpha) (Fin delta0) (Fin alpha1) (Fin delta01) (Fin d0) (Fin q) (Fin PA0).
Proof.
  split; apply in_ellipse_ext; try reflexivity; try ring.
  - unfold conic. rewrite rad_opp, sin_neg. ring.
  - unfold conic. ring.
Qed.

(** X7.  For a circle (axis ratio 1 or -1) the position angle is irrelevant. *)
Theorem in_ellipse_circle_any_angle alpha delta0 alpha1 delta01 d0 q PA0 PA1 :
  q * q = 1 ->
  in_ellipse (Fin alpha) (Fin delta0) (Fin alpha1) (Fin delta01) (Fin d0) (Fin q) (Fin PA0)
  = in_ellipse (Fin alpha) (Fin delta0) (Fin alpha1) (Fin delta01) (Fin d0) (Fin q) (Fin PA1).
Proof.
  intros Hq. apply in_ellipse_ext; try reflexivity.
  unfold conic, along, across. cbv zeta. rewrite Hq.
  pose proof (sin2_cos2 (rad PA0)) as H0. pose proof (sin2_cos2 (rad PA1)) as H1.
  unfold Rsqr in H0, H1.
  set (c0 := Rtrigo_def.cos (rad PA0)) in *. set (s0 := Rtrigo_def.sin (rad PA0)) in *.
  set (c1 := Rtrigo_def.cos (rad PA1)) in *. set (s1 := Rtrigo_def.sin (rad PA1)) in *.
  set (n := north alpha delta0 alpha1 delta01). set (e := east alpha delta0 alpha1 delta01).
  set (S := Rtrigo_def.sin (rad d0) * Rtrigo_def.sin (rad d0)).
  replace (1 * (S - (n * c0 + e * s0) * (n * c0 + e * s0))
           - (e * c0 - n * s0) * (e * c0 - n * s0) * (1 - (1 - 1) * S))
    with (S - (n * n + e * e) * (s0 * s0 + c0 * c0)) by ring.
  replace (1 * (S - (n * c1 + e * s1) * (n * c1 + e * s1))
           - (e * c1 - n * s1) * (e * c1 - n * s1) * (1 - (1 - 1) * S))
    with (S - (n * n + e * e) * (s1 * s1 + c1 * c1)) by ring.
  rewrite H0, H1. reflexivity.
Qed.

Lemma in_ellipse_circle_any_angle_M33 :
  in_ellipse (Fin 23.5) (Fin 30.7) (Fin 23.4620417) (Fin 30.6602222) (Fin 0.59) (Fin 1) (Fin 22)
  = in_ellipse (Fin 23.5) (Fin 30.7) (Fin 23.4620417) (Fin 30.6602222) (Fin 0.59) (Fin 1) (Fin 0).
Proof.
  apply (in_ellipse_circle_any_angle 23.5 30.7 23.4620417 30.6602222 0.59 1 22 0). lra.
Defined.



End ExactEllipseInvariance.

(** ** The matching loop: exceptions, composition, repeated runs *)

Section LoopRuns.
Context {F : Type} `{PyFloat F}.
Variables ra dec size_margin : F.

Lemma match_loop_app (xs ys ms : list loc) (h : heap F) :
  match_loop ra dec size_margin (xs ++ ys) ms h
  = py_bind (match_loop ra dec size_margin xs ms) (match_loop ra dec size_margin ys) h.
Proof.
  revert ms h. induction xs as [| g xs IH]; intros ms h; [reflexivity |].
  cbn [app match_loop]. unfold py_bind.
  destruct (loop_body ra dec size_margin g ms h) as [h' [e | ms']]; [reflexivity |].
  rewrite IH. reflexivity.
Qed.

(** X13.  The loop over [xs ++ ys] ([galaxies + [M31, M33]] in the notebook)
    is the loop over [xs] followed, unless that raised, by the loop over
    [ys] on the heap and with the matches it left.  An exception in [xs]
    ends the cell: no record of [ys] is read or annotated. *)
Theorem cell12_app (xs ys : list loc) (h : heap F) :
  cell12 ra dec size_margin (xs ++ ys) h
  = match cell12 ra dec size_margin xs h with
    | (h', inr ms) => match_loop ra dec size_margin ys ms h'
    | (h', inl e) => (h', inl e)
    end.
Proof. unfold cell12. rewrite match_loop_app. reflexivity. Qed.

(** X14.  A record that lacks one of the five keys the loop reads raises
    [KeyError] for the first of them in the order [ra], [dec], [a],
    [b2a], [pa], before any value is looked at, and nothing is written. *)
Theorem loop_body_missing_key (g : loc) (ms : list loc) (h : heap F) (d : dict F)
    (before after : list string) (k : string) :
  h !! g = Some d ->
  ["ra"; "dec"; "a"; "b2a"; "pa"] = before ++ k :: after ->
  Forall (fun k' => is_Some (d !! k')) before ->
  d !! k = None ->
  loop_body ra dec size_margin g ms h = (h, inl (KeyError k)).
Proof.
  intros Hg Hkeys Hbefore Hk. unfold loop_body.
  repeat (destruct before as [| ? before]; cbn [app] in Hkeys;
          [injection Hkeys as <- <-; rewrite bind_getitem, Hg, Hk; reflexivity |];
          injection Hkeys as <- Hkeys;
          apply Forall_cons in Hbefore as [[? Hv] Hbefore];
          rewrite bind_getitem, Hg, Hv; clear Hv).
  destruct before; cbn [app] in Hkeys; discriminate Hkeys.
Qed.

(** X15.  A record that has the five keys but holds something else than a
    number under [a], [b2a] or [pa] ([None], say) raises [TypeError] in
    the tests for missing values, and nothing is written. *)
Theorem loop_body_shape_not_number (g : loc) (ms : list loc) (h : heap F) (d : dict F)
    (k : string) :
  h !! g = Some d ->
  Forall (fun k' => is_Some (d !! k')) ["ra"; "dec"; "a"; "b2a"; "pa"] ->
  In k ["a"; "b2a"; "pa"] ->
  num_field h g k = None ->
  loop_body ra dec size_margin g ms h = (h, inl TypeError).
Proof.
  intros Hg Hkeys Hk Hnum. unfold num_field in Hnum. rewrite Hg in Hnum.
  apply Forall_cons in Hkeys as [[v_ra Hra] Hkeys].
  apply Forall_cons in Hkeys as [[v_dec Hdec] Hkeys].
  apply Forall_cons in Hkeys as [[v_a Ha] Hkeys].
  apply Forall_cons in Hkeys as [[v_b2a Hb2a] Hkeys].
  apply Forall_cons in Hkeys as [[v_pa Hpa] _].
  unfold loop_body.
  rewrite bind_getitem, Hg, Hra, bind_getitem, Hg, Hdec, bind_getitem, Hg, Ha,
    bind_getitem, Hg, Hb2a, bind_getitem, Hg, Hpa, !bind_as_num.
  destruct Hk as [<- | [<- | [<- | []]]].
  - rewrite Ha in Hnum. destruct v_a; try discriminate; reflexivity.
  - rewrite Hb2a in Hnum. destruct v_b2a; try discriminate; destruct v_a; reflexivity.
  - rewrite Hpa in Hnum. destruct v_pa; try discriminate; destruct v_a, v_b2a; reflexivity.
Qed.

(** X16.  The name and the coordinates of a record are read only once it has
    passed the test.  A passing record without a name raises
    [KeyError "name"], one without coordinates [KeyError "coordinates"],
    one whose coordinates are not a dict [TypeError]; in each case
    nothing is written and the record is not among the matches. *)
Theorem loop_body_name_coordinates (g : loc) (ms : list loc) (h : heap F) (d : dict F) :
  h !! g = Some d ->
  Forall (fun k => has_num h g k = true) ["ra"; "dec"; "a"; "b2a"; "pa"] ->
  if passes ra dec size_margin h g then
    (d !! "name" = None ->
     loop_body ra dec size_margin g ms h = (h, inl (KeyError "name")))
    /\ (is_Some (d !! "name") -> d !! "coordinates" = None ->
        loop_body ra dec size_margin g ms h = (h, inl (KeyError "coordinates")))
    /\ (forall v, is_Some (d !! "name") -> d !! "coordinates" = Some v ->
        (forall c, v <> VRef c) ->
        loop_body ra dec size_margin g ms h = (h, inl TypeError))
  else loop_body ra dec size_margin g ms h = (h, inr ms).
Proof.
  intros Hg Hkeys.
  apply Forall_cons in Hkeys as [Hra Hkeys]. apply (has_num_true h g _ d Hg) in Hra as [alpha1 Hra].
  apply Forall_cons in Hkeys as [Hdec Hkeys]. apply (has_num_true h g _ d Hg) in Hdec as [delta01 Hdec].
  apply Forall_cons in Hkeys as [Ha Hkeys]. apply (has_num_true h g _ d Hg) in Ha as [d0 Ha].
  apply Forall_cons in Hkeys as [Hb2a Hkeys]. apply (has_num_true h g _ d Hg) in Hb2a as [axis_ratio Hb2a].
  apply Forall_cons in Hkeys as [Hpa _]. apply (has_num_true h g _ d Hg) in Hpa as [PA0 Hpa].
  unfold loop_body, passes, num_field.
  rewrite bind_getitem, Hg, Hra, bind_getitem, Hg, Hdec, bind_getitem, Hg, Ha,
    bind_getitem, Hg, Hb2a, bind_getitem, Hg, Hpa, !bind_as_num.
  destruct (in_galaxy ra dec size_margin alpha1 delta01 d0 axis_ratio PA0); [| reflexivity].
  rewrite bind_getitem, Hg. split; [| split].
  - intros ->. reflexivity.
  - intros [name ->] Hc. rewrite bind_getitem, Hg, Hc. reflexivity.
  - intros v [name ->] Hc Hv. rewrite bind_getitem, Hg, Hc, bind_setitem.
    destruct v as [| | | | c]; try reflexivity. destruct (Hv c). reflexivity.
Qed.

(** *** The heap after the loop *)

Lemma same_but_distance_distance_arcsec_of (h h' : heap F) (g : loc) :
  same_but_distance h h' -> distance_arcsec_of ra dec h' g = distance_arcsec_of ra dec h g.
Proof.
  intros Hs. unfold distance_arcsec_of. rewrite !(same_but_distance_num_field h h') by done.
  reflexivity.
Qed.

Lemma same_but_distance_is_Some (h h' : heap F) (l : loc) :
  same_but_distance h h' -> is_Some (h !! l) -> is_Some (h' !! l).
Proof.
  intros Hs [d Hd]. specialize (Hs l). rewrite Hd in Hs.
  destruct (h' !! l); [eauto | contradiction].
Qed.

Lemma fold_annotate_same (gs : list loc) (h : heap F) :
  same_but_distance h (fold_left (annotate ra dec) gs h).
Proof.
  revert h. induction gs as [| g gs IH]; intros h; [apply same_but_distance_refl |].
  cbn. eapply same_but_distance_trans; [apply annotate_same | apply IH].
Qed.

Lemma annotate_lookup_ne (h : heap F) (g l : loc) :
  coordinates_of h g <> Some l -> annotate ra dec h g !! l = h !! l.
Proof.
  intros Hl. unfold annotate.
  destruct (coordinates_of h g) as [c |]; [| reflexivity].
  destruct (distance_arcsec_of ra dec h g); [| reflexivity].
  destruct (h !! c); [| reflexivity].
  apply lookup_insert_ne. congruence.
Qed.

Lemma annotate_lookup_eq (h : heap F) (g c : loc) (x : F) (d : dict F) :
  coordinates_of h g = Some c -> distance_arcsec_of ra dec h g = Some x -> h !! c = Some d ->
  annotate ra dec h g !! c = Some (<["distance_arcsec" := VNum x]> d).
Proof.
  intros Hc Hx Hd. unfold annotate. rewrite Hc, Hx, Hd. apply lookup_insert_eq.
Qed.

Lemma fold_annotate_untouched (gs : list loc) (h : heap F) (l : loc) :
  (forall g, In g gs -> coordinates_of h g <> Some l) ->
  fold_left (annotate ra dec) gs h !! l = h !! l.
Proof.
  revert h. induction gs as [| g gs IH]; intros h Hl; [reflexivity |].
  cbn. rewrite IH.
  - apply annotate_lookup_ne, Hl. left. reflexivity.
  - intros g' Hin. rewrite (same_but_distance_coordinates h) by apply annotate_same.
    apply Hl. right. exact Hin.
Qed.

(** The dict [c] after the annotations of [xs ++ g :: ys], when [g] is
    the last record whose coordinates are [c]. *)
Lemma fold_annotate_last (xs ys : list loc) (g c : loc) (x : F) (h : heap F) :
  coordinates_of h g = Some c -> distance_arcsec_of ra dec h g = Some x ->
  is_Some (h !! c) ->
  (forall g', In g' ys -> coordinates_of h g' <> Some c) ->
  exists d, fold_left (annotate ra dec) xs h !! c = Some d
            /\ fold_left (annotate ra dec) (xs ++ g :: ys) h !! c
               = Some (<["distance_arcsec" := VNum x]> d).
Proof.
  intros Hc Hx Hd Hys.
  pose proof (fold_annotate_same xs h) as Hs.
  destruct (same_but_distance_is_Some _ _ c Hs Hd) as [d Hd'].
  exists d. split; [exact Hd' |].
  rewrite fold_left_app. cbn [fold_left].
  rewrite fold_annotate_untouched.
  - apply annotate_lookup_eq; [| | exact Hd'].
    + rewrite (same_but_distance_coordinates h) by exact Hs. exact Hc.
    + rewrite (same_but_distance_distance_arcsec_of h) by exact Hs. exact Hx.
  - intros g' Hin.
    rewrite (same_but_distance_coordinates h);
      [apply Hys, Hin | eapply same_but_distance_trans; [exact Hs | apply annotate_same]].
Qed.

Lemma last_split (f : loc -> bool) (gs : list loc) :
  (forall g, In g gs -> f g = false)
  \/ exists xs g ys, gs = xs ++ g :: ys /\ f g = true /\ forall g', In g' ys -> f g' = false.
Proof.
  induction gs as [| g gs [IH | (xs & g0 & ys & -> & Hg0 & Hys)]].
  - left. intros g [].
  - destruct (f g) eqn:Hg.
    + right. exists [], g, gs. auto.
    + left. intros g' [<- | Hin]; auto.
  - right. exists (g :: xs), g0, ys. auto.
Qed.

Lemma record_ok_annotation (h : heap F) (g : loc) :
  record_ok h g = true ->
  exists c x, coordinates_of h g = Some c /\ distance_arcsec_of ra dec h g = Some x
              /\ is_Some (h !! c).
Proof.
  intros Hok.
  destruct (record_ok_fields h g Hok)
    as (dg & alpha1 & delta01 & d0 & axis_ratio & PA0 & name & c & d
        & Hg & Hra & Hdec & _ & _ & _ & _ & Hc & Hd).
  exists c, (round2 (great_circle_distance ra dec alpha1 delta01 * lit 3600))%py.
  unfold coordinates_of, distance_arcsec_of, num_field. rewrite Hg, Hra, Hdec, Hc.
  split; [reflexivity |]. split; [reflexivity |]. eauto.
Qed.

(** X17.  On records of the expected shape: the annotation a match [g] carries
    after the loop is the rounded separation of [g] itself, unless a
    later match shares its coordinates dict (the last one wins). *)
Theorem cell12_annotation_value (xs ys : list loc) (g c : loc) (h : heap F) :
  forallb (record_ok h) (xs ++ g :: ys) = true ->
  passes ra dec size_margin h g = true ->
  coordinates_of h g = Some c ->
  (forall g', In g' ys -> passes ra dec size_margin h g' = true ->
              coordinates_of h g' <> Some c) ->
  exists x,
    distance_arcsec_of ra dec h g = Some x
    /\ fst (cell12 ra dec size_margin (xs ++ g :: ys) h) !! c ≫= (.!! "distance_arcsec")
       = Some (VNum x).
Proof.
  intros Hok Hp Hc Hys. unfold cell12. rewrite match_loop_ok by exact Hok. cbn [fst].
  assert (record_ok h g = true) as Hg.
  { rewrite forallb_forall in Hok. apply Hok, in_or_app. right. left. reflexivity. }
  destruct (record_ok_annotation h g Hg) as (c' & x & Hc' & Hx & Hd).
  assert (c' = c) as -> by congruence.
  exists x. split; [exact Hx |].
  rewrite List.filter_app. cbn [List.filter]. rewrite Hp.
  destruct (fold_annotate_last (List.filter (passes ra dec size_margin h) xs)
              (List.filter (passes ra dec size_margin h) ys) g c x h Hc Hx Hd)
    as (d & _ & ->).
  - intros g' Hin. apply List.filter_In in Hin as [Hin Hp']. apply Hys; assumption.
  - cbn. apply lookup_insert_eq.
Qed.

(** X18.  On records of the expected shape, running the cell again on the
    records it has annotated gives the same matches and leaves every dict
    as the first run left it. *)
Theorem cell12_rerun (galaxies : list loc) (h : heap F) :
  forallb (record_ok h) galaxies = true ->
  cell12 ra dec size_margin galaxies (fst (cell12 ra dec size_margin galaxies h))
  = cell12 ra dec size_margin galaxies h.
Proof.
  intros Hok. unfold cell12. rewrite (match_loop_ok ra dec size_margin galaxies [] h Hok).
  cbn [fst].
  set (gs := List.filter (passes ra dec size_margin h) galaxies).
  set (h1 := fold_left (annotate ra dec) gs h).
  assert (same_but_distance h h1) as Hs by apply fold_annotate_same.
  rewrite match_loop_ok by (rewrite (forallb_record_ok_same h); assumption).
  rewrite (filter_passes_same ra dec size_margin h h1) by exact Hs. fold gs.
  f_equal. apply map_eq. intros l.
  destruct (last_split (fun g => bool_decide (coordinates_of h g = Some l)) gs)
    as [Hnone | (xs & g & ys & Hgs & Hg & Hys)].
  - apply fold_annotate_untouched. intros g Hin.
    rewrite (same_but_distance_coordinates h) by exact Hs.
    apply Hnone in Hin. apply bool_decide_eq_false in Hin. exact Hin.
  - apply bool_decide_eq_true in Hg.
    assert (forall g', In g' ys -> coordinates_of h g' <> Some l) as Hys'.
    { intros g' Hin. apply Hys in Hin. apply bool_decide_eq_false in Hin. exact Hin. }
    assert (record_ok h g = true) as Hgok.
    { rewrite forallb_forall in Hok. apply Hok.
      assert (In g gs) as Hin by (rewrite Hgs; apply in_or_app; right; left; reflexivity).
      apply List.filter_In in Hin. tauto. }
    destruct (record_ok_annotation h g Hgok) as (c & x & Hc & Hx & Hd).
    assert (c = l) as -> by congruence.
    destruct (fold_annotate_last xs ys g l x h Hc Hx Hd Hys') as (d0 & _ & E0).
    rewrite <- Hgs in E0. fold h1 in E0.
    destruct (fold_annotate_last xs ys g l x h1) as (d1 & E1 & E2).
    + rewrite (same_but_distance_coordinates h) by exact Hs. exact Hc.
    + rewrite (same_but_distance_distance_arcsec_of h) by exact Hs. exact Hx.
    + rewrite E0. eauto.
    + intros g' Hin. rewrite (same_but_distance_coordinates h) by exact Hs.
      apply Hys', Hin.
    + rewrite <- Hgs in E2. rewrite E2, E0. f_equal.
      pose proof (fold_annotate_same xs h1 l) as Hl. rewrite E0, E1 in Hl.
      apply map_eq. intros k. destruct (decide (k = "distance_arcsec")) as [-> | Hk].
      * rewrite !lookup_insert_eq. reflexivity.
      * rewrite !lookup_insert_ne by congruence.
        rewrite Hl by exact Hk. apply lookup_insert_ne. congruence.
Qed.

End LoopRuns.

(** ** Records of the notebook under the loop, whole and broken *)

Section LoopExamples.
Local Open Scope R_scope.

(** M31 without its axis ratio. *)
Lemma loop_body_missing_key_M31 :
  loop_body (Fin 10) (Fin 41) (lit 3) 3%positive []
    (<[3%positive := delete "b2a" M31]> notebook_heap)
  = (<[3%positive := delete "b2a" M31]> notebook_heap, inl (KeyError "b2a")).
Proof.
  apply (loop_body_missing_key (Fin 10) (Fin 41) (lit 3) 3%positive []
           (<[3%positive := delete "b2a" M31]> notebook_heap) (delete "b2a" M31)
           ["ra"; "dec"; "a"] ["pa"] "b2a").
  - apply lookup_insert_eq.
  - reflexivity.
  - repeat constructor; vm_compute; eauto.
  - vm_compute. reflexivity.
Defined.

(** M31 with [None] for its semi-major axis. *)
Lemma loop_body_shape_not_number_M31 :
  loop_body (Fin 10) (Fin 41) (lit 3) 3%positive []
    (<[3%positive := <["a" := VNone]> M31]> notebook_heap)
  = (<[3%positive := <["a" := VNone]> M31]> notebook_heap, inl TypeError).
Proof.
  apply (loop_body_shape_not_number (Fin 10) (Fin 41) (lit 3) 3%positive []
           (<[3%positive := <["a" := VNone]> M31]> notebook_heap) (<["a" := VNone]> M31) "a").
  - apply lookup_insert_eq.
  - repeat constructor; vm_compute; eauto.
  - left. reflexivity.
  - vm_compute. reflexivity.
Defined.

Lemma NED01_nameless_passes :
  passes (Fin 106.99741666666999) (Fin 31.663861111110002) (lit 3)
    (<[1%positive := delete "name" NED01]> notebook_heap) 1%positive = true.
Proof.
  change (passes (Fin 106.99741666666999) (Fin 31.663861111110002) (lit 3)
            (<[1%positive := delete "name" NED01]> notebook_heap) 1%positive)
    with (in_galaxy (Fin 106.99741666666999) (Fin 31.663861111110002) (lit 3)
            (Fin 106.99741666666999) (Fin 31.663861111110002) NaN NaN (Fin (-999))).
  rewrite in_galaxy_with_default, !with_default_NaN, with_default_sentinel by lra.
  cbn. apply in_ellipse_center; [lra | lra |]. apply not_multiple_of_180. lra.
Qed.

(** NED01 without its name, the supernova at its center. *)
Lemma loop_body_name_coordinates_NED01 :
  loop_body (Fin 106.99741666666999) (Fin 31.663861111110002) (lit 3) 1%positive []
    (<[1%positive := delete "name" NED01]> notebook_heap)
  = (<[1%positive := delete "name" NED01]> notebook_heap, inl (KeyError "name")).
Proof.
  pose proof (loop_body_name_coordinates (Fin 106.99741666666999) (Fin 31.663861111110002)
                (lit 3) 1%positive []
                (<[1%positive := delete "name" NED01]> notebook_heap) (delete "name" NED01))
    as T.
  rewrite NED01_nameless_passes in T.
  apply T.
  - apply lookup_insert_eq.
  - repeat constructor; vm_compute; reflexivity.
  - vm_compute. reflexivity.
Defined.

(** NED01 at its center, after the loop over NED01, M31 and M33. *)
Lemma cell12_annotation_value_NED01 :
  exists x,
    distance_arcsec_of (Fin 106.99741666666999) (Fin 31.663861111110002) notebook_heap 1%positive
    = Some x
    /\ fst (cell12 (Fin 106.99741666666999) (Fin 31.663861111110002) (lit 3)
              ([] ++ 1%positive :: [3%positive; 5%positive]) notebook_heap) !! 2%positive
       ≫= (.!! "distance_arcsec")
       = Some (VNum x).
Proof.
  apply (cell12_annotation_value (Fin 106.99741666666999) (Fin 31.663861111110002) (lit 3)
           [] [3%positive; 5%positive] 1%positive 2%positive notebook_heap).
  - vm_compute. reflexivity.
  - exact NED01_passes_at_center.
  - vm_compute. reflexivity.
  - intros g' [<- | [<- | []]] _; vm_compute; discriminate.
Defined.

Lemma cell12_rerun_notebook :
  cell12 (Fin 106.996905) (Fin 31.665367) (lit 3) [1%positive; 3%positive; 5%positive]
    (fst (cell12 (Fin 106.996905) (Fin 31.665367) (lit 3)
            [1%positive; 3%positive; 5%positive] notebook_heap))
  = cell12 (Fin 106.996905) (Fin 31.665367) (lit 3) [1%positive; 3%positive; 5%positive]
      notebook_heap.
Proof.
  apply (cell12_rerun (Fin 106.996905) (Fin 31.665367) (lit 3)
           [1%positive; 3%positive; 5%positive] notebook_heap).
  vm_compute. reflexivity.
Defined.

End LoopExamples.

(** * The routines in binary64 *)

(** ** Laws of the IEEE operations *)

Section FloatLaws.

Lemma SFmul_comm prec emax (x y : spec_float) : SFmul prec emax x y = SFmul prec emax y x.
Proof.
  destruct x as [sx | sx | | sx mx ex], y as [sy | sy | | sy my ey]; cbn;
    rewrite ?(xorb_comm sx sy); try reflexivity.
  rewrite (Pos.mul_comm mx my), (Z.add_comm ex ey). reflexivity.
Qed.

Lemma float_mul_comm (x y : float) : PrimFloat.mul x y = PrimFloat.mul y x.
Proof. apply Prim2SF_inj. rewrite !mul_spec. apply SFmul_comm. Qed.

(** The sign of a rounded number is the sign it was given. *)
Lemma SFabs_binary_round_aux prec emax s s' m e l :
  SFabs (binary_round_aux prec emax s m e l) = SFabs (binary_round_aux prec emax s' m e l).
Proof.
  unfold binary_round_aux.
  destruct (shr_fexp prec emax m e l) as [mrs' e'].
  destruct (shr_fexp prec emax _ e' loc_Exact) as [mrs'' e''].
  destruct (shr_m mrs''); [reflexivity | | reflexivity].
  destruct (Z.leb e'' _); reflexivity.
Qed.

Lemma SFabs_binary_normalize_opp prec emax m e :
  SFabs (binary_normalize prec emax (Z.opp m) e false)
  = SFabs (binary_normalize prec emax m e false).
Proof.
  destruct m as [| p | p]; unfold binary_normalize, Z.opp, binary_round; [reflexivity | |];
    destruct (shl_align _ _ _) as [mz ez]; apply SFabs_binary_round_aux.
Qed.

Lemma SFabs_sub_swap prec emax (x y : spec_float) :
  SFabs (SFsub prec emax x y) = SFabs (SFsub prec emax y x).
Proof.
  destruct x as [sx | sx | | sx mx ex], y as [sy | sy | | sy my ey];
    try (destruct sx, sy; reflexivity); try (destruct sx; reflexivity);
    try (destruct sy; reflexivity); try reflexivity.
  cbn [SFsub]. rewrite (Z.min_comm ey ex).
  rewrite <- SFabs_binary_normalize_opp. f_equal. f_equal. ring.
Qed.

(** [|x - y| = |y - x|], bit for bit. *)
Lemma float_abs_sub_swap (x y : float) :
  PrimFloat.abs (PrimFloat.sub x y) = PrimFloat.abs (PrimFloat.sub y x).
Proof. apply Prim2SF_inj. rewrite !abs_spec, !sub_spec. apply SFabs_sub_swap. Qed.

End FloatLaws.

(** ** The separation in binary64 *)

(** In every arithmetic the separation is [arctan2] of its sine and
    cosine terms, turned into degrees. *)
Lemma great_circle_distance_arctan2 {F} `{PyFloat F} (ra1 dec1 ra2 dec2 : F) :
  great_circle_distance ra1 dec1 ra2 dec2
  = div (mul (np_arctan2 (separation_sine ra1 dec1 ra2 dec2)
                         (separation_cosine ra1 dec1 ra2 dec2)) (lit 180)) np_pi.
Proof. reflexivity. Qed.

Section Binary64Separation.
Variables libm_cos libm_sin : float -> float.
Variable libm_atan2 : float -> float -> float.
Variable py_round2 : float -> float.
Let B : PyFloat float := binary64 libm_cos libm_sin libm_atan2 py_round2.
#[local] Existing Instance B.

(** C6, amended.  In binary64, whatever the C library computes for
    [cos], [sin] and [arctan2]: the separation depends on the two right
    ascensions through [|ra2 - ra1|] only, so exchanging them leaves the
    result as it is, bit for bit; exchanging two points of the same
    declination therefore does; and for any two points both orders pass
    the same cosine term to [arctan2].  What differs between the two
    orders is the sine term, whose first square is [cos dec2 * sin delta]
    in one order and [cos dec1 * sin delta] in the other. *)
Theorem great_circle_distance_symmetry (ra1 dec1 ra2 dec2 : float) :
  great_circle_distance ra1 dec1 ra2 dec2 = great_circle_distance ra2 dec1 ra1 dec2
  /\ great_circle_distance ra1 dec1 ra2 dec1 = great_circle_distance ra2 dec1 ra1 dec1
  /\ separation_cosine ra1 dec1 ra2 dec2 = separation_cosine ra2 dec2 ra1 dec1.
Proof.
  assert (forall r1 r2 d1 d2 : float,
             great_circle_distance r1 d1 r2 d2 = great_circle_distance r2 d1 r1 d2) as Hra.
  { intros r1 r2 d1 d2. unfold great_circle_distance. cbn.
    rewrite (float_abs_sub_swap (r2 * _) (r1 * _)). reflexivity. }
  split; [apply Hra |]. split; [apply Hra |].
  unfold separation_cosine. cbn.
  rewrite (float_abs_sub_swap (ra2 * _) (ra1 * _)).
  rewrite (float_mul_comm (libm_sin (dec1 * _)) (libm_sin (dec2 * _))).
  rewrite (float_mul_comm (libm_cos (dec1 * _)) (libm_cos (dec2 * _))).
  reflexivity.
Qed.

End Binary64Separation.

Section Binary64Examples.
#[local] Existing Instance numpy64.
Local Open Scope float_scope.

(** C6, as stated: the two orders give the same number.  They do not for
    the supernova of the notebook (106.996905, 31.665367) and its first
    match NED01 (106.99741666666999, 31.663861111110002):
    0.0015675967458650098 one way, 0.0015675967458671962 the other. *)
Lemma great_circle_distance_not_symmetric :
  great_circle_distance 0x1.abfcd4aa10e02p+6 0x1.faa557de0d66fp+4
                        0x1.abfd5acb6f54fp+6 0x1.fa9f2cd414dbep+4
  = 0x1.9aefa306f8371p-10
  /\ great_circle_distance 0x1.abfd5acb6f54fp+6 0x1.fa9f2cd414dbep+4
                           0x1.abfcd4aa10e02p+6 0x1.faa557de0d66fp+4
     = 0x1.9aefa306faad4p-10
  /\ PrimFloat.eqb
       (great_circle_distance 0x1.abfcd4aa10e02p+6 0x1.faa557de0d66fp+4
                              0x1.abfd5acb6f54fp+6 0x1.fa9f2cd414dbep+4)
       (great_circle_distance 0x1.abfd5acb6f54fp+6 0x1.fa9f2cd414dbep+4
                              0x1.abfcd4aa10e02p+6 0x1.faa557de0d66fp+4)
     = false.
Proof. repeat split; vm_compute; reflexivity. Qed.




(** Below a quarter turn rounding does the same: at the center of NED01,
    for [a = 1e-09], ratio 0.61 and angle 86, the margin 100 answers
    true ([t63 = 2^-54]) and the margin 1000 false ([t63 = -2^-53]). *)
Lemma in_ellipse_margin_rounding :
  in_ellipse 0x1.abfd5acb6f54fp+6 0x1.fa9f2cd414dbep+4
             0x1.abfd5acb6f54fp+6 0x1.fa9f2cd414dbep+4
             (mul (lit 100) 0x1.12e0be826d695p-30) (lit 0.61) (lit 86.0) = true
  /\ in_ellipse 0x1.abfd5acb6f54fp+6 0x1.fa9f2cd414dbep+4
                0x1.abfd5acb6f54fp+6 0x1.fa9f2cd414dbep+4
                (mul (lit 1000) 0x1.12e0be826d695p-30) (lit 0.61) (lit 86.0) = false.
Proof. repeat split; vm_compute; reflexivity. Qed.

End Binary64Examples.

(** ** The margin: exact arithmetic and binary64 *)

Section ExactAxis.
Local Open Scope R_scope.


End ExactAxis.

Section Binary64Margin.
Variables libm_cos libm_sin : float -> float.
Variable libm_atan2 : float -> float -> float.
Variable py_round2 : float -> float.
Let B : PyFloat float := binary64 libm_cos libm_sin libm_atan2 py_round2.
#[local] Existing Instance B.
Local Open Scope R_scope.


End Binary64Margin.

Section Binary64MarginExample.
Local Open Scope R_scope.



End Binary64MarginExample.

(** ** NaN in binary64 *)

Section FloatNaN.

Lemma Prim2SF_nan : Prim2SF nan = S754_nan.
Proof. reflexivity. Qed.

Lemma SFcompare_refl (x : spec_float) : x <> S754_nan -> SFcompare x x = Some Eq.
Proof.
  destruct x as [s | s | | s m e]; intros Hx; try congruence; cbn.
  - reflexivity.
  - destruct s; reflexivity.
  - rewrite Z.compare_refl, Pos.compare_cont_refl. destruct s; reflexivity.
Qed.

(** There is one NaN. *)
Lemma is_nan_eq (x : float) : PrimFloat.is_nan x = true -> x = nan.
Proof.
  unfold PrimFloat.is_nan. rewrite FloatAxioms.eqb_spec. intros Hx.
  apply Prim2SF_inj. rewrite Prim2SF_nan.
  destruct (Prim2SF x) eqn:E; try reflexivity;
    unfold SFeqb in Hx; rewrite SFcompare_refl in Hx by congruence; discriminate.
Qed.

Lemma add_nan_l x : PrimFloat.add nan x = nan.
Proof. apply Prim2SF_inj. rewrite add_spec, Prim2SF_nan. reflexivity. Qed.

Lemma add_nan_r x : PrimFloat.add x nan = nan.
Proof. apply Prim2SF_inj. rewrite add_spec, Prim2SF_nan. destruct (Prim2SF x); reflexivity. Qed.

Lemma sub_nan_l x : PrimFloat.sub nan x = nan.
Proof. apply Prim2SF_inj. rewrite sub_spec, Prim2SF_nan. reflexivity. Qed.

Lemma sub_nan_r x : PrimFloat.sub x nan = nan.
Proof. apply Prim2SF_inj. rewrite sub_spec, Prim2SF_nan. destruct (Prim2SF x); reflexivity. Qed.

Lemma mul_nan_l x : PrimFloat.mul nan x = nan.
Proof. apply Prim2SF_inj. rewrite mul_spec, Prim2SF_nan. reflexivity. Qed.

Lemma mul_nan_r x : PrimFloat.mul x nan = nan.
Proof. apply Prim2SF_inj. rewrite mul_spec, Prim2SF_nan. destruct (Prim2SF x); reflexivity. Qed.

Lemma div_nan_l x : PrimFloat.div nan x = nan.
Proof. apply Prim2SF_inj. rewrite div_spec, Prim2SF_nan. reflexivity. Qed.

Lemma opp_nan : PrimFloat.opp nan = nan.
Proof. reflexivity. Qed.

Lemma abs_nan : PrimFloat.abs nan = nan.
Proof. reflexivity. Qed.

Lemma sqrt_nan : PrimFloat.sqrt nan = nan.
Proof. reflexivity. Qed.

Lemma ltb_nan_r x : PrimFloat.ltb x nan = false.
Proof. rewrite FloatAxioms.ltb_spec, Prim2SF_nan. destruct (Prim2SF x); reflexivity. Qed.

(** The square root of a number below zero. *)
Lemma sqrt_negative x : PrimFloat.ltb x 0 = true -> PrimFloat.sqrt x = nan.
Proof.
  rewrite FloatAxioms.ltb_spec. intros Hx. apply Prim2SF_inj. rewrite sqrt_spec, Prim2SF_nan.
  change (Prim2SF 0) with (S754_zero false) in Hx.
  destruct (Prim2SF x) as [s | [|] | | [|] m e]; try reflexivity; discriminate.
Qed.

End FloatNaN.

Section Binary64NaN.
Variables libm_cos libm_sin : float -> float.
Variable libm_atan2 : float -> float -> float.
Variable py_round2 : float -> float.
Hypothesis libm_cos_nan : libm_cos nan = nan.
Hypothesis libm_atan2_nan : forall x, libm_atan2 nan x = nan.
Let B : PyFloat float := binary64 libm_cos libm_sin libm_atan2 py_round2.
#[local] Existing Instance B.

Ltac nan_absorb :=
  repeat first
    [ rewrite mul_nan_l | rewrite mul_nan_r | rewrite add_nan_l | rewrite add_nan_r
    | rewrite sub_nan_l | rewrite sub_nan_r | rewrite div_nan_l | rewrite opp_nan
    | rewrite abs_nan | rewrite sqrt_nan | rewrite libm_cos_nan | rewrite libm_atan2_nan ].

Lemma t63_nan_binary64 (alpha delta0 alpha1 delta01 d0 axis_ratio PA0 : float) :
  alpha = nan \/ delta0 = nan \/ alpha1 = nan \/ delta01 = nan \/ d0 = nan
  \/ axis_ratio = nan \/ PA0 = nan
  \/ PrimFloat.sqrt (PrimFloat.sub (float_lit 1) (PrimFloat.mul axis_ratio axis_ratio)) = nan ->
  t63 alpha delta0 alpha1 delta01 d0 axis_ratio PA0 = nan.
Proof.
  intros Hnan. unfold t63. cbn [B binary64 mul add sub div neg np_cos np_sin np_sqrt lit np_pi].
  destruct Hnan as [-> | [-> | [-> | [-> | [-> | [-> | [-> | ->]]]]]]]; nan_absorb; reflexivity.
Qed.

(** X4.  In binary64, for a C library whose [cos] of NaN is NaN:
    [in_ellipse] answers false whenever one of its seven arguments is
    NaN, and whenever [1 - axis_ratio * axis_ratio] as computed is below
    zero (the eccentricity is then the square root of a negative number,
    NaN). *)
Theorem in_ellipse_NaN_binary64 (alpha delta0 alpha1 delta01 d0 axis_ratio PA0 : float) :
  np_isnan alpha = true \/ np_isnan delta0 = true \/ np_isnan alpha1 = true
  \/ np_isnan delta01 = true \/ np_isnan d0 = true \/ np_isnan axis_ratio = true
  \/ np_isnan PA0 = true
  \/ ltb (sub (lit 1) (mul axis_ratio axis_ratio)) (lit 0) = true ->
  in_ellipse alpha delta0 alpha1 delta01 d0 axis_ratio PA0 = false.
Proof.
  intros Hnan. rewrite in_ellipse_decisions.
  rewrite t63_nan_binary64.
  - cbn [B binary64 ltb]. rewrite ltb_nan_r. destruct (PrimFloat.ltb _ _); reflexivity.
  - cbn [B binary64 np_isnan ltb sub mul lit] in Hnan.
    destruct Hnan as [H | [H | [H | [H | [H | [H | [H | H]]]]]]];
      try (apply is_nan_eq in H; tauto).
    do 7 right. apply sqrt_negative. exact H.
Qed.

(** X10.  In binary64, for a C library whose [cos] of NaN and whose
    [arctan2] of a NaN first argument are NaN: [great_circle_distance] is
    NaN whenever one of its four arguments is. *)
Theorem great_circle_distance_NaN_binary64 (ra1 dec1 ra2 dec2 : float) :
  np_isnan ra1 = true \/ np_isnan dec1 = true \/ np_isnan ra2 = true \/ np_isnan dec2 = true ->
  np_isnan (great_circle_distance ra1 dec1 ra2 dec2) = true.
Proof.
  intros Hnan. cbn [B binary64 np_isnan] in *.
  assert (great_circle_distance ra1 dec1 ra2 dec2 = nan) as ->; [| reflexivity].
  unfold great_circle_distance.
  cbn [B binary64 mul add sub div neg np_cos np_sin np_sqrt np_abs np_arctan2 lit np_pi].
  destruct Hnan as [H | [H | [H | H]]]; apply is_nan_eq in H; subst; nan_absorb; reflexivity.
Qed.

End Binary64NaN.

Section Binary64NaNExamples.
Local Open Scope float_scope.

(** NED01 as the catalogue has it ([a] and [b2a] NaN), passed without
    the defaults. *)
Lemma in_ellipse_NaN_binary64_NED01 :
  @in_ellipse float numpy64 0x1.abfcd4aa10e02p+6 0x1.faa557de0d66fp+4
    0x1.abfd5acb6f54fp+6 0x1.fa9f2cd414dbep+4 nan nan (-999) = false.
Proof.
  apply (in_ellipse_NaN_binary64 glibc_cos glibc_sin glibc_atan2 (fun _ => nan)).
  - reflexivity.
  - do 4 right. left. reflexivity.
Defined.

(** A record without a right ascension. *)
Lemma great_circle_distance_NaN_binary64_NED01 :
  PrimFloat.is_nan
    (@great_circle_distance float numpy64 0x1.abfcd4aa10e02p+6 0x1.faa557de0d66fp+4
       nan 0x1.fa9f2cd414dbep+4) = true.
Proof.
  apply (great_circle_distance_NaN_binary64 glibc_cos glibc_sin glibc_atan2 (fun _ => nan)).
  - reflexivity.
  - intros x. reflexivity.
  - right. right. left. reflexivity.
Defined.

End Binary64NaNExamples.
